(** * Token Creator backend: fee quote, payment verification, token minting

    A shallow embedding of [src/index.js].  The handlers of
    [/calculate-fee], [/verify-payment] and [/create-token] are pure
    functions of the request body and of the answers of the two external
    collaborators (the ledger client and the token-program client); what a
    handler does to the outside world is returned next to its reply, as the
    list of ledger fetches or of token-program operations it performed.
    [/generate-payment] only builds and serializes a transfer with the
    ledger library and is not embedded.

    JavaScript numbers are IEEE 754 binary64 values, so they are Rocq's
    primitive floats; [undefined], [null], missing body fields and
    truthiness are kept as the source has them. *)

From Stdlib Require Import List String Bool ZArith QArith Qabs Lia Floats.
Import ListNotations.

Set Implicit Arguments.
Set Warnings "-inexact-float".
Local Open Scope nat_scope.

(* ------------------------------------------------------------------ *)
(** * JavaScript values *)

Module JS.

(** A value as [JSON.parse] can leave it in [req.body].  A field that is
    missing from the body reads as [JUndefined].  Objects and arrays are not
    inspected by any handler except through truthiness and [===], so they are
    one constructor. *)
Inductive value : Type :=
| JUndefined
| JNull
| JBool (b : bool)
| JNum (n : float)
| JStr (s : string)
| JObj.

(** [ToBoolean], the test made by [if (v)]. *)
Definition truthy (v : value) : bool :=
  match v with
  | JUndefined | JNull => false
  | JBool b => b
  | JNum n => negb (n =? 0)%float && negb (is_nan n)
  | JStr s => negb (String.eqb s EmptyString)
  | JObj => true
  end.

(** [s === v] for a string [s]: no coercion, only an equal string is equal. *)
Definition strict_eq_str (s : string) (v : value) : bool :=
  match v with
  | JStr t => String.eqb s t
  | _ => false
  end.

(** [a[i]] on an array of numbers used as an operand of [-]: an index out of
    range reads [undefined], which [ToNumber] turns into NaN. *)
Definition number_at (a : list float) (i : nat) : float :=
  nth i a nan.

(** A number that is a number: everything but NaN. *)
Definition is_number (x : float) : bool := negb (is_nan x).

(** The outcome of an awaited call, or of an expression that may throw. *)
Inductive outcome (A : Type) : Type :=
| Resolved (a : A)
| Thrown.
Arguments Thrown {A}.

Definition bind {A B} (c : outcome A) (k : A -> outcome B) : outcome B :=
  match c with
  | Resolved a => k a
  | Thrown => Thrown
  end.

(** [a[i].method()]: reading a property of [undefined] throws a TypeError. *)
Definition element {A} (a : list A) (i : nat) : outcome A :=
  match nth_error a i with
  | Some x => Resolved x
  | None => Thrown
  end.

End JS.
Import JS.

Notation "x <- c ;; k" := (JS.bind c (fun x => k))
  (at level 61, c at next level, right associativity).

(* ------------------------------------------------------------------ *)
(** * Replies *)

(** The JSON bodies the handlers send. *)
Inductive body : Type :=
| FeeBody (totalFee : float)
| PaidBody (paid : bool)
| ErrorBody (error : string)
| MintBody (mint tokenAccount message : string).

(** [res.status(s).json(b)]; [res.json(b)] leaves the status at 200. *)
Record response : Type := Json { status : nat; payload : body }.

(** What a caller of an [async] handler observes: a reply, or none because
    an exception left the handler before any [res.json]. *)
Inductive reply : Type :=
| Sent (r : response)
| Escaped.

(* ------------------------------------------------------------------ *)
(** * Configuration *)

Definition DEV_WALLET : string := "86tXdBQuoD2cR9SXJMJSZLsZotkLUFqT7kZkwd9nLChm".
Definition BASE_FEE_SOL : float := 0.08%float.
Definition EXTRA_OPTION_FEE_SOL : float := 0.03%float.
Definition LAMPORTS_PER_SOL : float := 1000000000%float.
Definition HISTORY_LIMIT : nat := 50.

(* ------------------------------------------------------------------ *)
(** * 1. Fee calculator: POST /calculate-fee *)

Module Fee.

Record request : Type := {
  revokeMint : value;
  revokeFreeze : value;
  revokeMetadata : value;
  customMetadata : value
}.

Definition totalFee (r : request) : float :=
  let totalFee := BASE_FEE_SOL in
  let totalFee := if truthy (revokeMint r) then (totalFee + EXTRA_OPTION_FEE_SOL)%float else totalFee in
  let totalFee := if truthy (revokeFreeze r) then (totalFee + EXTRA_OPTION_FEE_SOL)%float else totalFee in
  let totalFee := if truthy (revokeMetadata r) then (totalFee + EXTRA_OPTION_FEE_SOL)%float else totalFee in
  let totalFee := if truthy (customMetadata r) then (totalFee + EXTRA_OPTION_FEE_SOL)%float else totalFee in
  totalFee.

Definition calculate_fee (r : request) : response :=
  Json 200 (FeeBody (totalFee r)).

(** The body sent by a client that states every flag as a boolean. *)
Definition of_flags (a b c d : bool) : request :=
  {| revokeMint := JBool a; revokeFreeze := JBool b;
     revokeMetadata := JBool c; customMetadata := JBool d |}.

(** A flag that the body leaves out, or states as [false]. *)
Definition absent_or_false (v : value) : bool :=
  match v with
  | JUndefined | JBool false => true
  | _ => false
  end.

(** How many of the four flags are set. *)
Definition count_true (a b c d : bool) : nat :=
  Nat.b2n a + Nat.b2n b + Nat.b2n c + Nat.b2n d.

(** The surcharge added [k] times, one addition per set flag. *)
Fixpoint surcharged (k : nat) (fee : float) : float :=
  match k with
  | O => fee
  | S k' => surcharged k' (fee + EXTRA_OPTION_FEE_SOL)%float
  end.

End Fee.

(* ------------------------------------------------------------------ *)
(** * Decimal amounts and their binary64 representation *)

Module Decimal.

(** The exact rational value of a finite double. *)
Definition exact (x : float) : option Q :=
  match Prim2SF x with
  | S754_zero _ => Some 0%Q
  | S754_finite s m e =>
      let n := if s then Z.neg m else Z.pos m in
      Some (match e with
            | Z0 => inject_Z n
            | Zpos p => inject_Z (n * 2 ^ Zpos p)
            | Zneg p => Qmake n (2 ^ p)%positive
            end)
  | _ => None
  end.

Definition Qdist (a b : Q) : Q := Qabs (a - b).

(** [x] is a double nearest to the rational [q]: no neighbouring double is
    closer.  This is how a decimal literal or a decimal amount is held in a
    JavaScript number. *)
Definition represents (x : float) (q : Q) : bool :=
  match exact x, exact (next_up x), exact (next_down x) with
  | Some v, Some up, Some down =>
      Qle_bool (Qdist v q) (Qdist up q) && Qle_bool (Qdist v q) (Qdist down q)
  | _, _, _ => false
  end.

(** The fee schedule in exact decimal arithmetic, in SOL: 0.08 and 0.03. *)
Definition base : Q := 8 # 100.
Definition surcharge : Q := 3 # 100.
Definition quote (k : nat) : Q := base + surcharge * inject_Z (Z.of_nat k).

End Decimal.

(* ------------------------------------------------------------------ *)
(** * Exact amounts *)

Module Amount.

(** An amount of SOL in lamports, exactly. *)
Definition in_lamports (fee : Q) : Q := fee * 1000000000.

(** The value of a finite binary64 number as a multiple of the smallest
    positive one, 2^-1074: an integer for every valid number. *)
Definition scaled (f : spec_float) : option Z :=
  match f with
  | S754_zero _ => Some 0%Z
  | S754_finite s m e => Some ((if s then Z.neg m else Z.pos m) * 2 ^ (e + 1074))%Z
  | _ => None
  end.

(** 2^1074, the denominator of those multiples. *)
Definition denominator : positive := (2 ^ 1074)%positive.

End Amount.

(* ------------------------------------------------------------------ *)
(** * The ledger client *)

Module Ledger.

(** [txn.meta]: the balances of the transaction's accounts before and after
    it, in lamports, indexed like the account list. *)
Record Meta : Type := {
  preBalances : list float;
  postBalances : list float
}.

(** What [connection.getTransaction] resolves to when it finds the
    transaction.  [accountKeys] is [txn.transaction.message.accountKeys],
    each key written as its [toBase58()] text; [meta] is [None] for a record
    that comes without metadata. *)
Record TransactionResponse : Type := {
  accountKeys : list string;
  meta : option Meta
}.

(** The answers of the RPC node during one request.  [history a] is the
    whole list of signatures of the confirmed transactions that involve the
    address [a], newest first; [getTransaction s] resolves to [None] (the
    client's [null]) when the node has no such transaction.  Either call can
    fail, which rejects the awaited promise. *)
Record client : Type := {
  history : string -> outcome (list string);
  getTransaction : value -> outcome (option TransactionResponse)
}.

(** [connection.getSignaturesForAddress(address, { limit })]: the node
    answers with the newest [limit] signatures of the address's history. *)
Definition getSignaturesForAddress (c : client) (address : string) (limit : nat)
  : outcome (list string) :=
  signatures <- history c address ;;
  Resolved (firstn limit signatures).

(** [txn.meta.preBalances[0] - txn.meta.postBalances[0]] *)
Definition balance_decrease (m : Meta) : float :=
  (number_at (preBalances m) 0 - number_at (postBalances m) 0)%float.

End Ledger.
Import Ledger.

(* ------------------------------------------------------------------ *)
(** * 3. Payment verifier, address-scan mode: POST /verify-payment *)

Module VerifyPayment.

(** [expectedFee] is the number that [expectedFee * LAMPORTS_PER_SOL]
    multiplies: the field's value for a JSON number, NaN when the field is
    missing. *)
Record request : Type := {
  userWallet : value;
  expectedFee : float
}.

(** The test of one fetched record that has metadata (the body of the inner
    [if] of the loop). *)
Definition qualifies (r : request) (txn : TransactionResponse) (m : Meta) : outcome bool :=
  sender <- element (accountKeys txn) 0 ;;
  let lamports := balance_decrease m in
  Resolved (strict_eq_str sender (userWallet r)
            && (expectedFee r * LAMPORTS_PER_SOL <=? lamports)%float).

(** The [for] loop over the signatures.  Next to the result it returns the
    signatures whose transaction it fetched, in order.  [Resolved true] is
    the early [return res.json({ paid: true })]; [Resolved false] is falling
    out of the loop. *)
Fixpoint scan (c : client) (r : request) (signatures : list string)
  : outcome bool * list string :=
  match signatures with
  | [] => (Resolved false, [])
  | sig :: rest =>
      let continue := let '(o, fetched) := scan c r rest in (o, sig :: fetched) in
      match getTransaction c (JStr sig) with
      | Thrown => (Thrown, [sig])
      | Resolved None => continue
      | Resolved (Some txn) =>
          match meta txn with
          | None => continue
          | Some m =>
              match qualifies r txn m with
              | Thrown => (Thrown, [sig])
              | Resolved true => (Resolved true, [sig])
              | Resolved false => continue
              end
          end
      end
  end.

(** The handler has no [try]: a rejected ledger call or a TypeError leaves
    it without a reply. *)
Definition verify_payment (c : client) (r : request) : reply * list string :=
  match getSignaturesForAddress c DEV_WALLET HISTORY_LIMIT with
  | Thrown => (Escaped, [])
  | Resolved signatures =>
      let '(o, fetched) := scan c r signatures in
      (match o with
       | Resolved paid => Sent (Json 200 (PaidBody paid))
       | Thrown => Escaped
       end, fetched)
  end.

(** A signature whose detail fetch gives nothing to test: no transaction, or
    a transaction without metadata. *)
Definition unfetchable (c : client) (sig : string) : bool :=
  match getTransaction c (JStr sig) with
  | Resolved None => true
  | Resolved (Some txn) => match meta txn with None => true | Some _ => false end
  | Thrown => false
  end.

(** A signature whose record passes the loop's test. *)
Definition matches (c : client) (r : request) (sig : string) : bool :=
  match getTransaction c (JStr sig) with
  | Resolved (Some txn) =>
      match meta txn with
      | Some m => match qualifies r txn m with Resolved b => b | Thrown => false end
      | None => false
      end
  | _ => false
  end.

(** A signature whose fetch and test go through without an exception. *)
Definition answers (c : client) (r : request) (sig : string) : bool :=
  match getTransaction c (JStr sig) with
  | Resolved (Some txn) =>
      match meta txn with
      | Some m => match qualifies r txn m with Resolved _ => true | Thrown => false end
      | None => true
      end
  | Resolved None => true
  | Thrown => false
  end.

End VerifyPayment.

(* ------------------------------------------------------------------ *)
(** * The token-program client *)

Module Token.

Inductive AuthorityType : Type := MintTokens | FreezeAccount.

(** The calls the handler makes on the token program, with their arguments;
    keys are written as their base58 text and [None] is the [null] new
    authority. *)
Inductive operation : Type :=
| CreateMint (payer mintAuthority freezeAuthority : string) (decimals : value)
| GetOrCreateAssociatedAccountInfo (mint owner : string)
| MintTo (mint dest authority : string) (amount : value)
| SetAuthority (mint account : string) (newAuthority : option string)
               (authorityType : AuthorityType) (currentAuthority : string).

(** The answers of the key library and of the token program during one
    request.  [fromSecretKey s] is the public key of
    [Keypair.fromSecretKey(Uint8Array.from(s))], which throws on a bad
    secret.  [perform op] resolves to the address the call yields (the new
    mint for [CreateMint], the holding account for
    [GetOrCreateAssociatedAccountInfo], the confirmation otherwise) or
    rejects. *)
Record client : Type := {
  fromSecretKey : value -> outcome string;
  perform : operation -> outcome string
}.

(** One operation the token program carried out, with the address it gave. *)
Definition entry : Type := (operation * string)%type.

(** The two authorities of a mint; [None] is a revoked authority. *)
Record MintState : Type := {
  mintAuthority : option string;
  freezeAuthority : option string
}.

(** What a carried-out operation does to the authorities of the mint at
    [address]. *)
Definition step (address : string) (st : option MintState) (e : entry) : option MintState :=
  match e with
  | (CreateMint _ ma fa _, created) =>
      if String.eqb created address
      then Some {| mintAuthority := Some ma; freezeAuthority := Some fa |}
      else st
  | (SetAuthority _ account new kind _, _) =>
      if String.eqb account address
      then match st, kind with
           | Some s, MintTokens =>
               Some {| mintAuthority := new; freezeAuthority := freezeAuthority s |}
           | Some s, FreezeAccount =>
               Some {| mintAuthority := mintAuthority s; freezeAuthority := new |}
           | None, _ => None
           end
      else st
  | _ => st
  end.

(** The authorities of the mint at [address] after the operations of [log]. *)
Definition authorities (address : string) (log : list entry) : option MintState :=
  fold_left (step address) log None.

Definition is_set_authority (e : entry) : bool :=
  match e with
  | (SetAuthority _ _ _ _ _, _) => true
  | _ => false
  end.

End Token.
Import Token.

(* ------------------------------------------------------------------ *)
(** * 4. Token minting orchestrator: POST /create-token *)

Module CreateToken.

(** [options] of the request body: [None] when the field is missing or
    [null], so that reading a property of it throws. *)
Record AuthorityOptions : Type := {
  revokeMint : value;
  revokeFreeze : value
}.

(** [expectedFee] as in [VerifyPayment.request]. *)
Record request : Type := {
  payerSecret : value;
  name : value;
  symbol : value;
  decimals : value;
  supply : value;
  options : option AuthorityOptions;
  metadataURI : value;
  userWallet : value;
  paymentSignature : value;
  expectedFee : float
}.

Definition invalid_transaction : response :=
  Json 400 (ErrorBody "Invalid payment transaction.").
Definition sender_mismatch : response :=
  Json 400 (ErrorBody "Payment sender does not match wallet.").
Definition receiver_mismatch : response :=
  Json 400 (ErrorBody "Payment receiver does not match dev wallet.").
Definition amount_mismatch : response :=
  Json 400 (ErrorBody "Incorrect payment amount.").
Definition creation_failed : response :=
  Json 500 (ErrorBody "Token creation failed.").

(** STEP 1 of the handler, from the fetched record to the first [return]:
    [Resolved (Some resp)] is an early [return res.status(400)...],
    [Resolved None] is reaching "Payment verified", [Thrown] a TypeError on
    a missing account key. *)
Definition verify (r : request) (fetched : option TransactionResponse)
  : outcome (option response) :=
  match fetched with
  | None => Resolved (Some invalid_transaction)
  | Some txn =>
      match meta txn with
      | None => Resolved (Some invalid_transaction)
      | Some m =>
          sender <- element (accountKeys txn) 0 ;;
          receiver <- element (accountKeys txn) 1 ;;
          let lamports := balance_decrease m in
          if negb (strict_eq_str sender (userWallet r)) then
            Resolved (Some sender_mismatch)
          else if negb (String.eqb receiver DEV_WALLET) then
            Resolved (Some receiver_mismatch)
          else if (lamports <? expectedFee r * LAMPORTS_PER_SOL)%float then
            Resolved (Some amount_mismatch)
          else Resolved None
      end
  end.

(** The body of the [try]: a computation that may throw and that extends the
    list of operations the token program carried out. *)
Definition action (A : Type) : Type := list entry -> outcome A * list entry.

Definition ret {A} (a : A) : action A := fun log => (Resolved a, log).

Definition bind {A B} (c : action A) (k : A -> action B) : action B :=
  fun log =>
    match c log with
    | (Resolved a, log') => k a log'
    | (Thrown, log') => (Thrown, log')
    end.

(** An awaited call or a throwing expression that leaves the token program
    alone. *)
Definition await {A} (o : outcome A) : action A := fun log => (o, log).

(** An awaited call on the token program: carried out when it resolves. *)
Definition call (t : Token.client) (op : operation) : action string :=
  fun log =>
    match perform t op with
    | Resolved address => (Resolved address, log ++ [(op, address)])
    | Thrown => (Thrown, log)
    end.

Notation "x <~ c ;; k" := (bind c (fun x => k))
  (at level 61, c at next level, right associativity).

Definition attempt (l : Ledger.client) (t : Token.client) (r : request) : action response :=
  txn <~ await (getTransaction l (paymentSignature r)) ;;
  refusal <~ await (verify r txn) ;;
  match refusal with
  | Some resp => ret resp
  | None =>
      payer <~ await (fromSecretKey t (payerSecret r)) ;;
      mint <~ call t (CreateMint payer payer payer (decimals r)) ;;
      tokenAccount <~ call t (GetOrCreateAssociatedAccountInfo mint payer) ;;
      _ <~ call t (MintTo mint tokenAccount payer (supply r)) ;;
      opts <~ await (match options r with Some o => Resolved o | None => Thrown end) ;;
      _ <~ (if truthy (revokeMint opts)
            then call t (SetAuthority mint mint None MintTokens payer)
            else ret EmptyString) ;;
      _ <~ (if truthy (revokeFreeze opts)
            then call t (SetAuthority mint mint None FreezeAccount payer)
            else ret EmptyString) ;;
      ret (Json 200 (MintBody mint tokenAccount "Token created successfully!"))
  end.

(** The handler: the reply, and the operations the token program carried
    out.  The [catch] turns every exception into the 500 reply. *)
Definition create_token (l : Ledger.client) (t : Token.client) (r : request)
  : response * list entry :=
  match attempt l t r [] with
  | (Resolved resp, log) => (resp, log)
  | (Thrown, log) => (creation_failed, log)
  end.

(** The ways a payment can fail verification. *)
Inductive mismatch : Type := InvalidRecord | WrongSender | WrongReceiver | WrongAmount.

Definition refusal_of (why : mismatch) : response :=
  match why with
  | InvalidRecord => invalid_transaction
  | WrongSender => sender_mismatch
  | WrongReceiver => receiver_mismatch
  | WrongAmount => amount_mismatch
  end.

(** [fails r fetched why]: the payment record [fetched] fails verification
    against the request [r] for the reason [why].  A record with metadata is
    judged on its first two accounts, the sender and the receiver, and on
    amounts taken as exact numbers: [paid] is the value of the first
    account's balance decrease and [due] the value of the handler's
    threshold, the binary64 product [expectedFee * LAMPORTS_PER_SOL]. *)
Inductive fails (r : request) : option TransactionResponse -> mismatch -> Prop :=
| fails_missing : fails r None InvalidRecord
| fails_incomplete txn :
    meta txn = None -> fails r (Some txn) InvalidRecord
| fails_sender txn m sender receiver others :
    meta txn = Some m ->
    accountKeys txn = sender :: receiver :: others ->
    strict_eq_str sender (userWallet r) = false ->
    fails r (Some txn) WrongSender
| fails_receiver txn m sender receiver others :
    meta txn = Some m ->
    accountKeys txn = sender :: receiver :: others ->
    strict_eq_str sender (userWallet r) = true ->
    receiver <> DEV_WALLET ->
    fails r (Some txn) WrongReceiver
| fails_amount txn m sender others (paid due : Q) :
    meta txn = Some m ->
    accountKeys txn = sender :: DEV_WALLET :: others ->
    strict_eq_str sender (userWallet r) = true ->
    Decimal.exact (balance_decrease m) = Some paid ->
    Decimal.exact (expectedFee r * LAMPORTS_PER_SOL) = Some due ->
    (paid < due)%Q ->
    fails r (Some txn) WrongAmount.

(** The first two conditions of reference-mode verification: the first
    account is the declared payer and the second is the operator. *)
Definition right_accounts (r : request) (txn : TransactionResponse) : Prop :=
  exists sender others,
    accountKeys txn = sender :: DEV_WALLET :: others
    /\ strict_eq_str sender (userWallet r) = true.

(** The three conditions of reference-mode verification, as the design
    states them, for a declared fee of [fee] SOL and a balance decrease of
    [paid] lamports, both exact: the accounts are right and the decrease is
    at least the fee. *)
Definition conditions (r : request) (txn : TransactionResponse) (fee paid : Q) : Prop :=
  right_accounts r txn /\ (Amount.in_lamports fee <= paid)%Q.

(** The request of the address-scan mode with the same payer and fee. *)
Definition as_scan (r : request) : VerifyPayment.request :=
  {| VerifyPayment.userWallet := userWallet r;
     VerifyPayment.expectedFee := expectedFee r |}.

End CreateToken.

(* ------------------------------------------------------------------ *)
(** * Concrete requests, records and collaborators *)

Module Sample.

Definition wallet : string := "7xKXtg2CW87d97TXJSDpbD5jBkheTqA83TZRuJosgAsU".
Definition stranger : string := "9WzDXwBbmkg8ZTbNMqUxvQRAyrZzDsGYdLVL9zYtAWWM".
Definition system_program : string := "11111111111111111111111111111111".

(** A transfer of [sent] lamports from [from] to [to], out of a balance of
    half a SOL. *)
Definition balances (sent : float) : Meta :=
  {| preBalances := [500000000; 0; 1]%float;
     postBalances := [500000000 - sent; sent; 1]%float |}.

Definition transfer (from to : string) (sent : float) : TransactionResponse :=
  {| accountKeys := [from; to; system_program];
     meta := Some (balances sent) |}.

(** The payment of a 0.11 SOL quote, to the lamport. *)
Definition payment : TransactionResponse := transfer wallet DEV_WALLET 110000000.
(** The same payment, one lamport short. *)
Definition short_payment : TransactionResponse := transfer wallet DEV_WALLET 109999999.
(** A sufficient transfer from the payer to somebody else. *)
Definition stray_payment : TransactionResponse := transfer wallet stranger 110000000.
(** A sufficient transfer to the operator from somebody else. *)
Definition foreign_payment : TransactionResponse := transfer stranger DEV_WALLET 110000000.
(** A transfer of a single lamport from the payer to the operator. *)
Definition dust_payment : TransactionResponse := transfer wallet DEV_WALLET 1.
(** A record that comes without metadata. *)
Definition bare_record : TransactionResponse :=
  {| accountKeys := [wallet; DEV_WALLET; system_program]; meta := None |}.

(** A node that knows the seven signatures below, with [h] as the
    operator's history. *)
Definition node (h : list string) : Ledger.client :=
  {| history := fun _ => Resolved h;
     getTransaction := fun s =>
       match s with
       | JStr "paid" => Resolved (Some payment)
       | JStr "short" => Resolved (Some short_payment)
       | JStr "stray" => Resolved (Some stray_payment)
       | JStr "foreign" => Resolved (Some foreign_payment)
       | JStr "dust" => Resolved (Some dust_payment)
       | JStr "bare" => Resolved (Some bare_record)
       | JStr "unknown" => Resolved None
       | _ => Thrown
       end |}.

(** A node that cannot be reached. *)
Definition unreachable : Ledger.client :=
  {| history := fun _ => Thrown; getTransaction := fun _ => Thrown |}.

(** Fifty transfers by somebody else, then the payer's, which is older. *)
Definition crowded : list string := repeat "foreign"%string 50 ++ ["paid"%string].

Definition scan_request : VerifyPayment.request :=
  {| VerifyPayment.userWallet := JStr wallet; VerifyPayment.expectedFee := 0.11 |}.

Definition owner : string := "5oNDL3swdJJF1g9DzJiZ4ynHXgszjAEpUkxVYejchzrY".

(** A token program on which every call succeeds. *)
Definition program : Token.client :=
  {| fromSecretKey := fun _ => Resolved owner;
     perform := fun op =>
       match op with
       | CreateMint _ _ _ _ => Resolved "mint-address"%string
       | GetOrCreateAssociatedAccountInfo _ _ => Resolved "holding-address"%string
       | _ => Resolved "confirmed"%string
       end |}.

Definition priced_request (fee : float) (signature : string)
           (revokeMint revokeFreeze : bool) : CreateToken.request :=
  {| CreateToken.payerSecret := JObj;
     CreateToken.name := JStr "Coin";
     CreateToken.symbol := JStr "CN";
     CreateToken.decimals := JNum 9;
     CreateToken.supply := JNum 1000000;
     CreateToken.options :=
       Some {| CreateToken.revokeMint := JBool revokeMint;
               CreateToken.revokeFreeze := JBool revokeFreeze |};
     CreateToken.metadataURI := JUndefined;
     CreateToken.userWallet := JStr wallet;
     CreateToken.paymentSignature := JStr signature;
     CreateToken.expectedFee := fee |}.

(** A request that declares the 0.11 SOL quote. *)
Definition mint_request : string -> bool -> bool -> CreateToken.request :=
  priced_request 0.11.

(** A request whose body leaves [expectedFee] out:
    [undefined * LAMPORTS_PER_SOL] is NaN. *)
Definition unpriced_request (signature : string) : CreateToken.request :=
  priced_request nan signature false false.

End Sample.

(* ------------------------------------------------------------------ *)
(** * 2. Payment request builder: POST /generate-payment *)

Module GeneratePayment.

(** [totalFee] is the number that [totalFee * LAMPORTS_PER_SOL] multiplies,
    NaN when the field is missing. *)
Record request : Type := {
  userWallet : value;
  totalFee : float
}.

(** The argument of [SystemProgram.transfer]; keys as their base58 text. *)
Record TransferParams : Type := {
  fromPubkey : string;
  toPubkey : string;
  lamports : float
}.

Inductive Instruction : Type := SystemTransfer (params : TransferParams).

(** A [Transaction] object with the fields the handler sets. *)
Record Transaction : Type := {
  instructions : list Instruction;
  recentBlockhash : option string;
  feePayer : option string
}.

(** The answers of the ledger library during one request.  [newPublicKey v]
    is [new PublicKey(v)], which throws on a value that is no address;
    [accepts p] tells whether [SystemProgram.transfer(p)] encodes the
    parameters rather than throwing; [getLatestBlockhash] is the node's
    answer; [serialize tx] is
    [tx.serialize({ requireAllSignatures: false }).toString('base64')]. *)
Record library : Type := {
  newPublicKey : value -> outcome string;
  accepts : TransferParams -> bool;
  getLatestBlockhash : outcome string;
  serialize : Transaction -> outcome string
}.

Definition transfer (lib : library) (params : TransferParams) : outcome Instruction :=
  if accepts lib params then Resolved (SystemTransfer params) else Thrown.

(** The two replies of the handler. *)
Inductive answer : Type :=
| Built (transaction : string)
| Failed (error : string).

Definition answer_status (a : answer) : nat :=
  match a with
  | Built _ => 200
  | Failed _ => 500
  end.

Definition generation_failed : answer := Failed "Failed to generate payment transaction.".

(** The body of the [try]: the serialized transaction, next to whether the
    node was asked for a blockhash on the way. *)
Definition build (lib : library) (r : request) : outcome string * bool :=
  match newPublicKey lib (userWallet r) with
  | Thrown => (Thrown, false)
  | Resolved from =>
      match transfer lib {| fromPubkey := from;
                            toPubkey := DEV_WALLET;
                            lamports := (totalFee r * LAMPORTS_PER_SOL)%float |} with
      | Thrown => (Thrown, false)
      | Resolved instruction =>
          let transaction :=
            {| instructions := [instruction]; recentBlockhash := None; feePayer := None |} in
          match getLatestBlockhash lib with
          | Thrown => (Thrown, true)
          | Resolved blockhash =>
              let transaction :=
                {| instructions := instructions transaction;
                   recentBlockhash := Some blockhash;
                   feePayer := feePayer transaction |} in
              match newPublicKey lib (userWallet r) with
              | Thrown => (Thrown, true)
              | Resolved payer =>
                  let transaction :=
                    {| instructions := instructions transaction;
                       recentBlockhash := recentBlockhash transaction;
                       feePayer := Some payer |} in
                  (serialize lib transaction, true)
              end
          end
      end
  end.

(** The handler: the [catch] turns every exception into the 500 reply. *)
Definition generate_payment (lib : library) (r : request) : answer * bool :=
  match build lib r with
  | (Resolved serializedTx, asked) => (Built serializedTx, asked)
  | (Thrown, asked) => (generation_failed, asked)
  end.

End GeneratePayment.

(* ------------------------------------------------------------------ *)
(** * Quotes in lamports, and the order of the minting steps *)

Module Quote.

(** How many of the four flags pass [if (flag)]. *)
Definition flags_set (r : Fee.request) : nat :=
  Nat.b2n (truthy (Fee.revokeMint r)) + Nat.b2n (truthy (Fee.revokeFreeze r))
  + Nat.b2n (truthy (Fee.revokeMetadata r)) + Nat.b2n (truthy (Fee.customMetadata r)).

(** The JavaScript number that holds the integer [n]. *)
Definition whole (n : Z) : float := of_uint63 (Uint63.of_Z n).

(** The fee schedule in lamports: 80 000 000 and 30 000 000 per option. *)
Definition lamports (k : nat) : Z := (80000000 + 30000000 * Z.of_nat k)%Z.

End Quote.

Module Plan.

Import CreateToken.

(** The calls on the token program in the order the handler makes them, for
    a caller [payer], a new mint at [mint] and a holding account at
    [account]; without [options] the handler stops after the third. *)
Definition steps (r : request) (payer mint account : string) : list operation :=
  [CreateMint payer payer payer (decimals r);
   GetOrCreateAssociatedAccountInfo mint payer;
   MintTo mint account payer (supply r)]
  ++ match options r with
     | None => []
     | Some opts =>
         (if truthy (revokeMint opts)
          then [SetAuthority mint mint None MintTokens payer] else [])
         ++ (if truthy (revokeFreeze opts)
             then [SetAuthority mint mint None FreezeAccount payer] else [])
     end.

End Plan.

(* ------------------------------------------------------------------ *)
(** * More concrete requests and collaborators *)

Module Scenario.

(** A ledger library that takes any non-empty string for an address and any
    amount that is a number. *)
Definition web3 : GeneratePayment.library :=
  {| GeneratePayment.newPublicKey := fun v =>
       match v with
       | JStr EmptyString => Thrown
       | JStr s => Resolved s
       | _ => Thrown
       end;
     GeneratePayment.accepts := fun p => is_number (GeneratePayment.lamports p);
     GeneratePayment.getLatestBlockhash := Resolved "EkSnNWid2cvwEVnVx9aBqawnmiCNiDgp3gUdkDPTKN1N"%string;
     GeneratePayment.serialize := fun _ => Resolved "AQAAAA=="%string |}.

Definition payment_request : GeneratePayment.request :=
  {| GeneratePayment.userWallet := JStr Sample.wallet;
     GeneratePayment.totalFee := 0.11 |}.

(** A body without [userWallet]. *)
Definition anonymous_request : GeneratePayment.request :=
  {| GeneratePayment.userWallet := JUndefined;
     GeneratePayment.totalFee := 0.11 |}.

(** A token program on which minting the supply fails. *)
Definition stalling : Token.client :=
  {| fromSecretKey := fun _ => Resolved Sample.owner;
     perform := fun op =>
       match op with
       | CreateMint _ _ _ _ => Resolved "mint-address"%string
       | GetOrCreateAssociatedAccountInfo _ _ => Resolved "holding-address"%string
       | _ => Thrown
       end |}.

(** A paid request whose body has no [options]. *)
Definition optionless_request : CreateToken.request :=
  {| CreateToken.payerSecret := JObj;
     CreateToken.name := JStr "Coin";
     CreateToken.symbol := JStr "CN";
     CreateToken.decimals := JNum 9;
     CreateToken.supply := JNum 1000000;
     CreateToken.options := None;
     CreateToken.metadataURI := JUndefined;
     CreateToken.userWallet := JStr Sample.wallet;
     CreateToken.paymentSignature := JStr "paid";
     CreateToken.expectedFee := 0.11 |}.

(** A record with metadata that lists the payer alone. *)
Definition lonely_record : TransactionResponse :=
  {| accountKeys := [Sample.wallet];
     meta := Some {| preBalances := [500000000]%float;
                     postBalances := [499995000]%float |} |}.

(** A node that answers every fetch with that record. *)
Definition lonely_node : Ledger.client :=
  {| history := fun _ => Resolved [];
     getTransaction := fun _ => Resolved (Some lonely_record) |}.

(** A scan request whose body leaves [expectedFee] out. *)
Definition unpriced_scan : VerifyPayment.request :=
  {| VerifyPayment.userWallet := JStr Sample.wallet;
     VerifyPayment.expectedFee := nan |}.

(** Two option flags given as JSON strings, two left out. *)
Definition stringly_flags : Fee.request :=
  {| Fee.revokeMint := JStr "false"; Fee.revokeFreeze := JStr "";
     Fee.revokeMetadata := JNum 1; Fee.customMetadata := JNull |}.

(** A transfer by the payer of 109 999 999 lamports to somebody else and of
    one lamport to the operator, who is the third account of the record. *)
Definition detour_payment : TransactionResponse :=
  {| accountKeys := [Sample.wallet; Sample.stranger; DEV_WALLET; Sample.system_program];
     meta := Some {| preBalances := [500000000; 0; 7; 1]%float;
                     postBalances := [390000000; 109999999; 8; 1]%float |} |}.

(** A node on which that transfer is the operator's whole history. *)
Definition detour_node : Ledger.client :=
  {| history := fun _ => Resolved ["detour"%string];
     getTransaction := fun s =>
       match s with
       | JStr "detour" => Resolved (Some detour_payment)
       | _ => Resolved None
       end |}.

(** A record with metadata that lists somebody else alone. *)
Definition lone_stranger_record : TransactionResponse :=
  {| accountKeys := [Sample.stranger];
     meta := Some {| preBalances := [500000000]%float;
                     postBalances := [499995000]%float |} |}.

Definition lone_stranger_node : Ledger.client :=
  {| history := fun _ => Resolved [];
     getTransaction := fun _ => Resolved (Some lone_stranger_record) |}.

(** A payment of 67 000 000 lamports, which is 0.067 SOL, and a node that
    answers every fetch with it. *)
Definition round_payment : TransactionResponse :=
  Sample.transfer Sample.wallet DEV_WALLET 67000000.

Definition round_node : Ledger.client :=
  {| history := fun _ => Resolved ["round"%string];
     getTransaction := fun _ => Resolved (Some round_payment) |}.

(** A request that declares a fee of 0.067 SOL. *)
Definition round_request : CreateToken.request :=
  Sample.priced_request 0.067 "round" false false.

End Scenario.

(* ------------------------------------------------------------------ *)
(** * Comparing JavaScript numbers *)

Section Comparison.

Lemma SFcompare_antisym (a b : spec_float) :
  SFcompare b a = option_map CompOpp (SFcompare a b).
Proof.
  destruct a as [sa|sa| |sa ma ea], b as [sb|sb| |sb mb eb]; simpl;
    try reflexivity;
    try (destruct sa; reflexivity);
    try (destruct sb; reflexivity);
    try (destruct sa, sb; reflexivity).
  change (Pos.compare_cont Eq mb ma) with (Pos.compare mb ma).
  change (Pos.compare_cont Eq ma mb) with (Pos.compare ma mb).
  rewrite (Z.compare_antisym ea eb), (Pos.compare_antisym ma mb).
  destruct sa, sb; simpl; try reflexivity;
    destruct (ea ?= eb)%Z; simpl; try reflexivity;
    destruct (ma ?= mb)%positive; reflexivity.
Qed.

Lemma is_number_compare (x : float) :
  is_number x = true -> SFcompare (Prim2SF x) (Prim2SF x) = Some Eq.
Proof.
  unfold is_number, is_nan. rewrite negb_involutive, eqb_spec. unfold SFeqb.
  destruct (SFcompare (Prim2SF x) (Prim2SF x)) as [[ | | ]|]; congruence.
Qed.

Lemma is_number_comparable (x y : float) :
  is_number x = true -> is_number y = true ->
  exists c, SFcompare (Prim2SF x) (Prim2SF y) = Some c.
Proof.
  intros Hx Hy. apply is_number_compare in Hx, Hy.
  destruct (Prim2SF x), (Prim2SF y); simpl in *; try discriminate; eauto.
Qed.

(** Between numbers, [a < b] is the negation of [b <= a]. *)
Lemma ltb_negb_leb (a b : float) :
  is_number a = true -> is_number b = true ->
  (a <? b)%float = negb (b <=? a)%float.
Proof.
  intros Ha Hb. rewrite ltb_spec, leb_spec. unfold SFltb, SFleb.
  rewrite (SFcompare_antisym (Prim2SF a) (Prim2SF b)).
  destruct (is_number_comparable a b Ha Hb) as [c ->].
  destruct c; reflexivity.
Qed.

Lemma leb_refl (a : float) : is_number a = true -> (a <=? a)%float = true.
Proof.
  intros Ha. rewrite leb_spec. unfold SFleb.
  now rewrite (is_number_compare a Ha).
Qed.

(** NaN compares false with everything, in both directions. *)
Lemma nan_ltb (a b : float) :
  is_number b = false -> (a <? b)%float = false /\ (b <=? a)%float = false.
Proof.
  unfold is_number, is_nan. rewrite negb_involutive, eqb_spec, ltb_spec, leb_spec.
  unfold SFeqb, SFltb, SFleb. intros H.
  destruct (Prim2SF b) as [s|s| |s m e]; simpl in H.
  - discriminate.
  - destruct s; discriminate.
  - destruct (Prim2SF a); auto.
  - rewrite Z.compare_refl in H.
    change (Pos.compare_cont Eq m m) with (Pos.compare m m) in H.
    rewrite Pos.compare_refl in H. destruct s; discriminate.
Qed.

End Comparison.

(* ------------------------------------------------------------------ *)
(** * The order of numbers is the order of their exact values *)

Section ExactOrder.

Import Amount.

Lemma digits2_pos_size (m : positive) : digits2_pos m = Pos.size m.
Proof. induction m; simpl; congruence. Qed.

Lemma mantissa_bounds (m : positive) :
  (2 ^ Z.pos (digits2_pos m) <= 2 * Z.pos m /\ Z.pos m < 2 ^ Z.pos (digits2_pos m))%Z.
Proof.
  rewrite digits2_pos_size. split.
  - pose proof (Pos.size_le m) as H.
    apply Pos2Z.pos_le_pos in H. rewrite Pos2Z.inj_pow in H.
    change (Z.pos m~0) with (2 * Z.pos m)%Z in H. exact H.
  - pose proof (Pos.size_gt m) as H.
    apply Pos2Z.pos_lt_pos in H. rewrite Pos2Z.inj_pow in H. exact H.
Qed.

(** What validity says of a finite binary64 number: its exponent is at
    least -1074, its mantissa has at most 53 bits, and exactly 53 unless the
    exponent is the least one. *)
Lemma bounded_facts (m : positive) (e : Z) :
  bounded prec emax m e = true ->
  (-1074 <= e /\ Z.pos m < 2 ^ 53 /\ (-1074 < e -> 2 ^ 52 <= Z.pos m))%Z.
Proof.
  unfold bounded, canonical_mantissa, fexp, emin, prec, emax.
  intros H. apply andb_prop in H. destruct H as [Hc _].
  apply Z.eqb_eq in Hc.
  destruct (mantissa_bounds m) as [Hlo Hhi].
  set (d := Z.pos (digits2_pos m)) in *.
  assert (Hd : (0 < d)%Z) by (unfold d; lia).
  assert (He : (-1074 <= e)%Z) by lia.
  assert (Hd53 : (d <= 53)%Z) by lia.
  split; [exact He|]. split.
  - apply Z.lt_le_trans with (1 := Hhi). apply Z.pow_le_mono_r; lia.
  - intros Hn. assert (Hfull : d = 53%Z) by lia.
    rewrite Hfull in Hlo. change (2 ^ 53)%Z with (2 * 2 ^ 52)%Z in Hlo. lia.
Qed.

(** Of two valid positive numbers, the one with the smaller exponent is the
    smaller. *)
Lemma smaller_exponent_smaller_value (m1 m2 : positive) (e1 e2 : Z) :
  bounded prec emax m1 e1 = true -> bounded prec emax m2 e2 = true ->
  (e1 < e2)%Z ->
  (Z.pos m1 * 2 ^ (e1 + 1074) < Z.pos m2 * 2 ^ (e2 + 1074))%Z.
Proof.
  intros H1 H2 Hlt.
  destruct (@bounded_facts _ _ H1) as (He1 & Hm1 & _).
  destruct (@bounded_facts _ _ H2) as (He2 & _ & Hm2).
  specialize (Hm2 ltac:(lia)).
  replace (e2 + 1074)%Z with ((e1 + 1074) + 1 + (e2 - e1 - 1))%Z by lia.
  rewrite (Z.pow_add_r 2 (e1 + 1074 + 1) (e2 - e1 - 1)) by lia.
  rewrite (Z.pow_add_r 2 (e1 + 1074) 1) by lia.
  assert (HP : (0 < 2 ^ (e1 + 1074))%Z) by (apply Z.pow_pos_nonneg; lia).
  assert (HK : (1 <= 2 ^ (e2 - e1 - 1))%Z).
  { change 1%Z with (2 ^ 0)%Z at 1. apply Z.pow_le_mono_r; lia. }
  change (2 ^ 1)%Z with 2%Z. change (2 ^ 53)%Z with (2 * 2 ^ 52)%Z in Hm1.
  set (P := (2 ^ (e1 + 1074))%Z) in *. set (K := (2 ^ (e2 - e1 - 1))%Z) in *.
  set (T := (2 ^ 52)%Z) in *.
  assert (Hstep : (Z.pos m1 * P < (2 * Z.pos m2) * P)%Z)
    by (apply Z.mul_lt_mono_pos_r; lia).
  assert (Hgrow : ((2 * Z.pos m2) * P * 1 <= (2 * Z.pos m2) * P * K)%Z)
    by (apply Z.mul_le_mono_nonneg_l; nia).
  lia.
Qed.

(** The comparison of IEEE 754 is the comparison of the scaled values. *)
Lemma SFcompare_scaled (a b : spec_float) (za zb : Z) :
  valid_binary a = true -> valid_binary b = true ->
  scaled a = Some za -> scaled b = Some zb ->
  SFcompare a b = Some (za ?= zb)%Z.
Proof.
  destruct a as [sa|sa| |sa ma ea], b as [sb|sb| |sb mb eb];
    unfold scaled; cbn [SFcompare SpecFloat.valid_binary];
    intros Va Vb Ha Hb; try discriminate;
    injection Ha as <-; injection Hb as <-.
  - reflexivity.
  - f_equal. symmetry.
    assert (0 < Z.pos mb * 2 ^ (eb + 1074))%Z
      by (apply Z.mul_pos_pos; [lia | apply Z.pow_pos_nonneg;
                                      [lia | destruct (@bounded_facts _ _ Vb); lia]]).
    destruct sb; rewrite <- ?Pos2Z.opp_pos, ?Z.mul_opp_l;
      [apply Z.compare_gt_iff | apply Z.compare_lt_iff]; lia.
  - f_equal. symmetry.
    assert (0 < Z.pos ma * 2 ^ (ea + 1074))%Z
      by (apply Z.mul_pos_pos; [lia | apply Z.pow_pos_nonneg;
                                      [lia | destruct (@bounded_facts _ _ Va); lia]]).
    destruct sa; rewrite <- ?Pos2Z.opp_pos, ?Z.mul_opp_l;
      [apply Z.compare_lt_iff | apply Z.compare_gt_iff]; lia.
  - f_equal. symmetry.
    assert (HPa : (0 < 2 ^ (ea + 1074))%Z)
      by (apply Z.pow_pos_nonneg; [lia | destruct (@bounded_facts _ _ Va); lia]).
    assert (HPb : (0 < 2 ^ (eb + 1074))%Z)
      by (apply Z.pow_pos_nonneg; [lia | destruct (@bounded_facts _ _ Vb); lia]).
    assert (Ha : (0 < Z.pos ma * 2 ^ (ea + 1074))%Z) by (apply Z.mul_pos_pos; lia).
    assert (Hb : (0 < Z.pos mb * 2 ^ (eb + 1074))%Z) by (apply Z.mul_pos_pos; lia).
    change (Pos.compare_cont Eq ma mb) with (Pos.compare ma mb).
    destruct sa, sb; rewrite <- ?Pos2Z.opp_pos, ?Z.mul_opp_l.
    + destruct (Z.compare_spec ea eb) as [Heq|Hlt|Hgt].
      * subst eb. destruct (Pos.compare_spec ma mb) as [E|L|G]; cbn [CompOpp].
        -- subst. apply Z.compare_eq_iff. reflexivity.
        -- apply Z.compare_gt_iff. apply Pos2Z.pos_lt_pos in L.
           apply (Z.mul_lt_mono_pos_r _ _ _ HPa) in L. lia.
        -- apply Z.compare_lt_iff. apply Pos2Z.pos_lt_pos in G.
           apply (Z.mul_lt_mono_pos_r _ _ _ HPa) in G. lia.
      * apply Z.compare_gt_iff.
        pose proof (@smaller_exponent_smaller_value _ _ _ _ Va Vb Hlt). lia.
      * apply Z.compare_lt_iff.
        pose proof (@smaller_exponent_smaller_value _ _ _ _ Vb Va Hgt). lia.
    + apply Z.compare_lt_iff. lia.
    + apply Z.compare_gt_iff. lia.
    + destruct (Z.compare_spec ea eb) as [Heq|Hlt|Hgt].
      * subst eb. destruct (Pos.compare_spec ma mb) as [E|L|G].
        -- subst. apply Z.compare_eq_iff. reflexivity.
        -- apply Z.compare_lt_iff. apply Pos2Z.pos_lt_pos in L.
           now apply Z.mul_lt_mono_pos_r.
        -- apply Z.compare_gt_iff. apply Pos2Z.pos_lt_pos in G.
           now apply Z.mul_lt_mono_pos_r.
      * apply Z.compare_lt_iff. exact (@smaller_exponent_smaller_value _ _ _ _ Va Vb Hlt).
      * apply Z.compare_gt_iff. exact (@smaller_exponent_smaller_value _ _ _ _ Vb Va Hgt).
Qed.

Lemma ltb_scaled (x y : float) (zx zy : Z) :
  scaled (Prim2SF x) = Some zx -> scaled (Prim2SF y) = Some zy ->
  (x <? y)%float = (zx <? zy)%Z.
Proof.
  intros Hx Hy. rewrite ltb_spec. unfold SFltb.
  rewrite (@SFcompare_scaled _ _ _ _ (Prim2SF_valid x) (Prim2SF_valid y) Hx Hy).
  unfold Z.ltb. destruct (zx ?= zy)%Z; reflexivity.
Qed.

Lemma leb_scaled (x y : float) (zx zy : Z) :
  scaled (Prim2SF x) = Some zx -> scaled (Prim2SF y) = Some zy ->
  (x <=? y)%float = (zx <=? zy)%Z.
Proof.
  intros Hx Hy. rewrite leb_spec. unfold SFleb.
  rewrite (@SFcompare_scaled _ _ _ _ (Prim2SF_valid x) (Prim2SF_valid y) Hx Hy).
  unfold Z.leb. destruct (zx ?= zy)%Z; reflexivity.
Qed.

(** The exact value of a number is its scaled value over 2^1074. *)
Lemma exact_scaled (x : float) (q : Q) :
  Decimal.exact x = Some q ->
  exists z, scaled (Prim2SF x) = Some z /\ (q == z # denominator)%Q.
Proof.
  unfold Decimal.exact. pose proof (Prim2SF_valid x) as Hv.
  assert (HD : Z.pos denominator = (2 ^ 1074)%Z)
    by (unfold denominator; now rewrite Pos2Z.inj_pow).
  destruct (Prim2SF x) as [s|s| |s m e]; intros H; inversion H; subst; clear H.
  - exists 0%Z. split; reflexivity.
  - cbn [SpecFloat.valid_binary] in Hv.
    destruct (@bounded_facts _ _ Hv) as (He & _ & _).
    eexists. split; [reflexivity|].
    set (n := if s then Z.neg m else Z.pos m).
    unfold Qeq. destruct e as [|p|p]; cbn [Qnum Qden inject_Z]; rewrite HD.
    + change (0 + 1074)%Z with 1074%Z. now rewrite Z.mul_1_r.
    + rewrite Z.pow_add_r, Z.mul_1_r by lia.
      change (Z.pow_pos 2 p) with (2 ^ Z.pos p)%Z. symmetry. apply Z.mul_assoc.
    + rewrite Pos2Z.inj_pow.
      replace (2 ^ 1074)%Z with (2 ^ (Z.neg p + 1074) * 2 ^ Z.pos p)%Z.
      * apply Z.mul_assoc.
      * rewrite <- Z.pow_add_r by lia. f_equal. lia.
Qed.

(** [<] and [<=] between finite numbers are those of their exact values. *)
Lemma order_of_exact_values (x y : float) (qx qy : Q) :
  Decimal.exact x = Some qx -> Decimal.exact y = Some qy ->
  ((x <? y)%float = true <-> (qx < qy)%Q)
  /\ ((x <=? y)%float = true <-> (qx <= qy)%Q).
Proof.
  intros Hx Hy.
  destruct (@exact_scaled _ _ Hx) as (zx & Hzx & Hqx).
  destruct (@exact_scaled _ _ Hy) as (zy & Hzy & Hqy).
  rewrite (@ltb_scaled _ _ _ _ Hzx Hzy), (@leb_scaled _ _ _ _ Hzx Hzy), Hqx, Hqy.
  unfold Qlt, Qle. cbn [Qnum Qden].
  rewrite Z.ltb_lt, Z.leb_le. split.
  - apply Z.mul_lt_mono_pos_r. lia.
  - apply Z.mul_le_mono_pos_r. lia.
Qed.

(** The handler's amount test, read on exact values. *)
Lemma amount_test_exact (paid_number due_number : float) (paid due : Q) :
  Decimal.exact paid_number = Some paid -> Decimal.exact due_number = Some due ->
  ((paid_number <? due_number)%float = true <-> (paid < due)%Q)
  /\ ((paid_number <? due_number)%float = false <-> (due <= paid)%Q)
  /\ ((due_number <=? paid_number)%float = true <-> (due <= paid)%Q).
Proof.
  intros Hp Hd.
  destruct (@order_of_exact_values _ _ _ _ Hp Hd) as [Hlt _].
  destruct (@order_of_exact_values _ _ _ _ Hd Hp) as [_ Hle].
  split; [exact Hlt|]. split; [|exact Hle].
  rewrite <- not_true_iff_false, Hlt. split.
  - apply Qnot_lt_le.
  - apply Qle_not_lt.
Qed.

End ExactOrder.

(* ------------------------------------------------------------------ *)
(** * Properties of the fee calculator *)

Section FeeProperties.

Import Fee.

Lemma literals_are_the_decimal_schedule :
  Decimal.represents BASE_FEE_SOL Decimal.base = true
  /\ Decimal.represents EXTRA_OPTION_FEE_SOL Decimal.surcharge = true.
Proof. split; vm_compute; reflexivity. Qed.

(** A flag that does not pass [if (flag)] leaves the running total alone. *)
Lemma totalFee_falsy (r : request) :
  truthy (revokeMint r) = false -> truthy (revokeFreeze r) = false ->
  truthy (revokeMetadata r) = false -> truthy (customMetadata r) = false ->
  totalFee r = BASE_FEE_SOL.
Proof.
  intros H1 H2 H3 H4. unfold totalFee. now rewrite H1, H2, H3, H4.
Qed.

Lemma absent_or_false_falsy (v : value) : absent_or_false v = true -> truthy v = false.
Proof. destruct v as [ | | [|] | | | ]; simpl; congruence. Qed.

(** The total is the base with one addition of the surcharge per truthy
    flag, whatever JSON values the flags are. *)
Lemma totalFee_surcharged (r : request) :
  totalFee r =
  surcharged (Nat.b2n (truthy (revokeMint r)) + Nat.b2n (truthy (revokeFreeze r))
              + Nat.b2n (truthy (revokeMetadata r)) + Nat.b2n (truthy (customMetadata r)))
             BASE_FEE_SOL.
Proof.
  unfold totalFee.
  destruct (truthy (revokeMint r)), (truthy (revokeFreeze r)),
    (truthy (revokeMetadata r)), (truthy (customMetadata r)); reflexivity.
Qed.

(** Three options cost 0.17 SOL; multiplying the surcharge by three in
    binary64 before adding it would give the double below 0.17 instead. *)
Example three_options :
  totalFee (of_flags true true false true) = 0.17%float
  /\ (BASE_FEE_SOL + EXTRA_OPTION_FEE_SOL * 3 =? 0.17)%float = false.
Proof. split; vm_compute; reflexivity. Qed.

(** C5: for every assignment of the four boolean flags the quoted fee is the
    base fee plus the surcharge once per flag that is true: the reply carries
    the base with the surcharge added that many times, this number is the
    double that holds the decimal amount 0.08 + 0.03 * (number of true
    flags), and any other assignment with as many true flags gets the same
    fee. *)
Theorem fee_is_base_plus_surcharge_per_true_flag (a b c d : bool) :
  calculate_fee (of_flags a b c d)
    = Json 200 (FeeBody (surcharged (count_true a b c d) BASE_FEE_SOL))
  /\ Decimal.represents (totalFee (of_flags a b c d))
       (Decimal.quote (count_true a b c d)) = true
  /\ (forall a' b' c' d' : bool,
        count_true a' b' c' d' = count_true a b c d ->
        totalFee (of_flags a' b' c' d') = totalFee (of_flags a b c d)).
Proof.
  split; [|split].
  - unfold calculate_fee. rewrite totalFee_surcharged. reflexivity.
  - destruct a, b, c, d; vm_compute; reflexivity.
  - intros a' b' c' d' Hcount.
    rewrite !totalFee_surcharged. simpl.
    unfold count_true in Hcount. now rewrite Hcount.
Qed.

(** C10: a flag that is missing from the body counts as a flag that is
    false: when each of the four option fields is absent or [false], the
    reply is 200 with the base fee itself as the total. *)
Theorem absent_flags_quote_the_base_fee (r : request) :
  absent_or_false (revokeMint r) = true ->
  absent_or_false (revokeFreeze r) = true ->
  absent_or_false (revokeMetadata r) = true ->
  absent_or_false (customMetadata r) = true ->
  calculate_fee r = Json 200 (FeeBody BASE_FEE_SOL)
  /\ calculate_fee r = calculate_fee (of_flags false false false false).
Proof.
  intros H1 H2 H3 H4.
  apply absent_or_false_falsy in H1, H2, H3, H4.
  unfold calculate_fee. rewrite (totalFee_falsy r H1 H2 H3 H4). split; reflexivity.
Qed.

(** The empty body [{}], and a body that states two flags as [false]. *)
Lemma absent_flags_quote_the_base_fee_witness :
  calculate_fee {| revokeMint := JUndefined; revokeFreeze := JUndefined;
                   revokeMetadata := JUndefined; customMetadata := JUndefined |}
    = Json 200 (FeeBody 0.08)
  /\ calculate_fee {| revokeMint := JBool false; revokeFreeze := JUndefined;
                      revokeMetadata := JBool false; customMetadata := JUndefined |}
    = Json 200 (FeeBody 0.08).
Proof.
  split.
  - apply (absent_flags_quote_the_base_fee
             {| revokeMint := JUndefined; revokeFreeze := JUndefined;
                revokeMetadata := JUndefined; customMetadata := JUndefined |});
      reflexivity.
  - apply (absent_flags_quote_the_base_fee
             {| revokeMint := JBool false; revokeFreeze := JUndefined;
                revokeMetadata := JBool false; customMetadata := JUndefined |});
      reflexivity.
Defined.

End FeeProperties.

(* ------------------------------------------------------------------ *)
(** * Properties of reference-mode verification *)

Section ReferenceMode.

Import CreateToken.

Variable r : request.

(** The three tests in their order, on a record that lists a sender and a
    receiver. *)
Lemma verify_two_accounts txn m sender receiver others :
  meta txn = Some m ->
  accountKeys txn = sender :: receiver :: others ->
  verify r (Some txn) =
    if negb (strict_eq_str sender (userWallet r)) then Resolved (Some sender_mismatch)
    else if negb (String.eqb receiver DEV_WALLET) then Resolved (Some receiver_mismatch)
    else if (balance_decrease m <? expectedFee r * LAMPORTS_PER_SOL)%float
         then Resolved (Some amount_mismatch)
         else Resolved None.
Proof.
  intros Hm Hk. unfold verify, element. rewrite Hm, Hk. reflexivity.
Qed.

(** A record that passes lists a sender and a receiver and passes each test. *)
Lemma verify_passed txn m :
  meta txn = Some m ->
  verify r (Some txn) = Resolved None ->
  exists sender others,
    accountKeys txn = sender :: DEV_WALLET :: others
    /\ strict_eq_str sender (userWallet r) = true
    /\ (balance_decrease m <? expectedFee r * LAMPORTS_PER_SOL)%float = false.
Proof.
  intros Hm. destruct (accountKeys txn) as [|sender [|receiver others]] eqn:Hk.
  - unfold verify, element. rewrite Hm, Hk. discriminate.
  - unfold verify, element. rewrite Hm, Hk. discriminate.
  - rewrite (verify_two_accounts _ Hm Hk).
    destruct (strict_eq_str sender (userWallet r)) eqn:Hs; simpl; [|discriminate].
    destruct (String.eqb receiver DEV_WALLET) eqn:Hr; simpl; [|discriminate].
    destruct (balance_decrease m <? expectedFee r * LAMPORTS_PER_SOL)%float;
      [discriminate|].
    apply String.eqb_eq in Hr. subst receiver. intros _.
    exists sender, others. auto.
Qed.

Lemma refusals_differ :
  sender_mismatch <> receiver_mismatch
  /\ sender_mismatch <> amount_mismatch
  /\ receiver_mismatch <> amount_mismatch
  /\ invalid_transaction <> sender_mismatch
  /\ invalid_transaction <> receiver_mismatch
  /\ invalid_transaction <> amount_mismatch.
Proof. repeat split; discriminate. Qed.

(** The record passes exactly when its accounts are right and the amount
    test finds nothing. *)
Lemma verify_passes_iff txn m :
  meta txn = Some m ->
  (verify r (Some txn) = Resolved None
   <-> right_accounts r txn
       /\ (balance_decrease m <? expectedFee r * LAMPORTS_PER_SOL)%float = false).
Proof.
  intros Hm. split.
  - intros Hv. destruct (verify_passed _ Hm Hv) as (sender & others & Hk & Hs & Hb).
    split; [exists sender, others; auto | exact Hb].
  - intros [(sender & others & Hk & Hs) Hb].
    rewrite (verify_two_accounts _ Hm Hk), Hs, String.eqb_refl, Hb. reflexivity.
Qed.

(** C3, as the code has it: for a fetched record with metadata whose balance
    decrease is a finite number of value [paid], and a request whose
    threshold, the binary64 product [expectedFee * LAMPORTS_PER_SOL], is a
    finite number of value [due], verification passes exactly when the first
    account is the declared payer, the second account is the operator
    address and [due <= paid].  For every declared fee that the body's
    number holds and whose product is that fee in lamports exactly, these
    are the three conditions of the design: then an amount equal to the fee
    passes, and any smaller amount, one lamport below it for one, is refused
    as an incorrect amount. *)
Theorem reference_verification_passes_iff_three_conditions txn m (paid due : Q) :
  meta txn = Some m ->
  Decimal.exact (balance_decrease m) = Some paid ->
  Decimal.exact (expectedFee r * LAMPORTS_PER_SOL) = Some due ->
  (verify r (Some txn) = Resolved None <-> right_accounts r txn /\ (due <= paid)%Q)
  /\ (forall fee : Q,
        Decimal.represents (expectedFee r) fee = true ->
        (due == Amount.in_lamports fee)%Q ->
        (verify r (Some txn) = Resolved None <-> conditions r txn fee paid)
        /\ (right_accounts r txn ->
            ((paid == Amount.in_lamports fee)%Q ->
             verify r (Some txn) = Resolved None)
            /\ ((paid < Amount.in_lamports fee)%Q ->
                verify r (Some txn) = Resolved (Some amount_mismatch))
            /\ ((paid == Amount.in_lamports fee - 1)%Q ->
                verify r (Some txn) = Resolved (Some amount_mismatch)))).
Proof.
  intros Hm Hpaid Hdue.
  destruct (@amount_test_exact _ _ _ _ Hpaid Hdue) as (Hlt & Hge & _).
  assert (Hiff : verify r (Some txn) = Resolved None
                 <-> right_accounts r txn /\ (due <= paid)%Q).
  { rewrite (@verify_passes_iff _ _ Hm), Hge. reflexivity. }
  assert (Hshort : right_accounts r txn -> (paid < due)%Q ->
                   verify r (Some txn) = Resolved (Some amount_mismatch)).
  { intros (sender & others & Hk & Hs) Hless. apply Hlt in Hless.
    rewrite (verify_two_accounts _ Hm Hk), Hs, String.eqb_refl, Hless. reflexivity. }
  split; [exact Hiff|].
  intros fee _ Hexact. unfold conditions. rewrite <- Hexact.
  split; [exact Hiff|].
  intros Hacc. split; [|split].
  - intros Heq. apply Hiff. split; [exact Hacc|]. rewrite Heq. apply Qle_refl.
  - intros Hless. apply Hshort; [exact Hacc|]. exact Hless.
  - intros Heq. apply Hshort; [exact Hacc|]. rewrite Heq.
    rewrite <- (Qplus_0_r due) at 2. unfold Qminus.
    apply Qplus_lt_r. reflexivity.
Qed.

(** C4, as the code has it: on a record with metadata that lists a sender
    and a receiver, a first account other than the declared payer is refused
    with the sender message whatever the receiver and the amount are; with
    the sender right, a second account other than the operator is refused
    with the receiver message whatever the amount is; with both right, a
    balance decrease whose value is below that of the threshold, both
    finite numbers, is refused with the amount message; and the three
    replies differ. *)
Theorem each_mismatch_reports_its_own_reason txn m sender receiver others :
  meta txn = Some m ->
  accountKeys txn = sender :: receiver :: others ->
  (strict_eq_str sender (userWallet r) = false ->
   verify r (Some txn) = Resolved (Some sender_mismatch))
  /\ (strict_eq_str sender (userWallet r) = true ->
      receiver <> DEV_WALLET ->
      verify r (Some txn) = Resolved (Some receiver_mismatch))
  /\ (forall paid due : Q,
        strict_eq_str sender (userWallet r) = true ->
        receiver = DEV_WALLET ->
        Decimal.exact (balance_decrease m) = Some paid ->
        Decimal.exact (expectedFee r * LAMPORTS_PER_SOL) = Some due ->
        (paid < due)%Q ->
        verify r (Some txn) = Resolved (Some amount_mismatch))
  /\ sender_mismatch <> receiver_mismatch
  /\ sender_mismatch <> amount_mismatch
  /\ receiver_mismatch <> amount_mismatch.
Proof.
  intros Hm Hk. rewrite (verify_two_accounts _ Hm Hk).
  repeat split; try discriminate.
  - intros ->. reflexivity.
  - intros -> Hr. apply String.eqb_neq in Hr. rewrite Hr. reflexivity.
  - intros paid due -> -> Hpaid Hdue Hless.
    apply (proj1 (@amount_test_exact _ _ _ _ Hpaid Hdue)) in Hless.
    rewrite String.eqb_refl, Hless. reflexivity.
Qed.

End ReferenceMode.

(* ------------------------------------------------------------------ *)
(** * Verification gates the minting *)

Section Gate.

Import CreateToken.

Variables (l : Ledger.client) (t : Token.client) (r : request).

(** An early [return res.status(400)] is the reply, and nothing was asked of
    the token program. *)
Lemma create_token_refused fetched resp :
  getTransaction l (paymentSignature r) = Resolved fetched ->
  verify r fetched = Resolved (Some resp) ->
  create_token l t r = (resp, []).
Proof.
  intros Hf Hv. unfold create_token, attempt, bind, await. rewrite Hf, Hv.
  reflexivity.
Qed.

(** An exception before "Payment verified" is the 500 reply, and nothing was
    asked of the token program. *)
Lemma create_token_unverified :
  (getTransaction l (paymentSignature r) = Thrown
   \/ exists fetched, getTransaction l (paymentSignature r) = Resolved fetched
                      /\ verify r fetched = Thrown) ->
  create_token l t r = (creation_failed, []).
Proof.
  unfold create_token, attempt, bind, await.
  intros [Hf | (fetched & Hf & Hv)]; rewrite Hf; [|rewrite Hv]; reflexivity.
Qed.

(** Whatever the token program was asked, the payment had passed before. *)
Lemma minting_requires_verified_payment :
  snd (create_token l t r) <> [] ->
  exists passed,
    getTransaction l (paymentSignature r) = Resolved passed
    /\ verify r passed = Resolved None.
Proof.
  destruct (getTransaction l (paymentSignature r)) as [fetched|] eqn:Hf.
  - destruct (verify r fetched) as [[resp|]|] eqn:Hv.
    + rewrite (create_token_refused Hf Hv). simpl. congruence.
    + eauto.
    + rewrite create_token_unverified by eauto. simpl. congruence.
  - rewrite create_token_unverified by auto. simpl. congruence.
Qed.

Lemma fails_refused fetched why :
  fails r fetched why -> verify r fetched = Resolved (Some (refusal_of why)).
Proof.
  intros H. destruct H as [ | txn Hm | txn m s rc o Hm Hk Hs
                          | txn m s rc o Hm Hk Hs Hr
                          | txn m s o paid due Hm Hk Hs Hpaid Hdue Hless ].
  - reflexivity.
  - simpl. now rewrite Hm.
  - rewrite (verify_two_accounts r _ Hm Hk), Hs. reflexivity.
  - rewrite (verify_two_accounts r _ Hm Hk), Hs.
    apply String.eqb_neq in Hr. rewrite Hr. reflexivity.
  - apply (proj1 (@amount_test_exact _ _ _ _ Hpaid Hdue)) in Hless.
    rewrite (verify_two_accounts r _ Hm Hk), Hs, String.eqb_refl, Hless.
    reflexivity.
Qed.

Lemma refusal_of_injective (a b : mismatch) : refusal_of a = refusal_of b -> a = b.
Proof. destruct a, b; simpl; intros H; try reflexivity; discriminate H. Qed.

(** A refusal of the verification step is one of the four named ones. *)
Lemma verify_refusal_named fetched resp :
  verify r fetched = Resolved (Some resp) -> exists why, resp = refusal_of why.
Proof.
  destruct fetched as [txn|]; simpl.
  - destruct (meta txn); [|intros H; inversion H; now exists InvalidRecord].
    destruct (element (accountKeys txn) 0); simpl; [|discriminate].
    destruct (element (accountKeys txn) 1); simpl; [|discriminate].
    destruct (negb (strict_eq_str a (userWallet r)));
      [intros H; inversion H; now exists WrongSender|].
    destruct (negb (String.eqb a0 DEV_WALLET));
      [intros H; inversion H; now exists WrongReceiver|].
    destruct (balance_decrease m <? expectedFee r * LAMPORTS_PER_SOL)%float;
      intros H; inversion H. now exists WrongAmount.
  - intros H. inversion H. now exists InvalidRecord.
Qed.

(** A 400 reply is a refusal of the verification step: nothing was asked of
    the token program. *)
Lemma create_token_400 :
  status (fst (create_token l t r)) = 400 ->
  snd (create_token l t r) = []
  /\ exists why, fst (create_token l t r) = refusal_of why.
Proof.
  destruct (getTransaction l (paymentSignature r)) as [fetched|] eqn:Hf;
    [|rewrite create_token_unverified by auto; discriminate].
  destruct (verify r fetched) as [[resp|]|] eqn:Hv.
  - rewrite (create_token_refused Hf Hv). intros _. split; [reflexivity|].
    exact (verify_refusal_named _ Hv).
  - unfold create_token, attempt, bind, await, call, ret. rewrite Hf, Hv.
    destruct (fromSecretKey t (payerSecret r)) as [payer|]; [|discriminate].
    destruct (perform t (CreateMint payer payer payer (decimals r))) as [mint|];
      [|discriminate].
    destruct (perform t (GetOrCreateAssociatedAccountInfo mint payer)) as [account|];
      [|discriminate].
    destruct (perform t (MintTo mint account payer (supply r))); [|discriminate].
    destruct (options r) as [opts|]; [|discriminate].
    destruct (truthy (revokeMint opts));
      [destruct (perform t (SetAuthority mint mint None MintTokens payer));
         [|discriminate]|];
      (destruct (truthy (revokeFreeze opts));
       [destruct (perform t (SetAuthority mint mint None FreezeAccount payer))|]);
      discriminate.
  - rewrite create_token_unverified by eauto. discriminate.
Qed.

End Gate.

(** C1, as the code has it: when the payment fetched for a create-token
    request is missing or has no metadata, or has metadata, lists a sender
    and a receiver and has a sender other than the declared payer, a
    receiver other than the operator, or a balance decrease whose value is
    below that of the handler's threshold (both finite numbers), the reply is
    the 400 refusal of that very reason and the token program was asked
    nothing: no mint, no holding account, no supply.  In every run a 400
    reply is one of these four refusals with nothing asked of the token
    program, and an operation on the token program means the payment had
    been fetched and had passed verification. *)
Theorem failed_verification_is_refused_before_any_minting
  (l : Ledger.client) (t : Token.client) (r : CreateToken.request)
  (fetched : option TransactionResponse) (why : CreateToken.mismatch) :
  getTransaction l (CreateToken.paymentSignature r) = Resolved fetched ->
  CreateToken.fails r fetched why ->
  CreateToken.create_token l t r = (CreateToken.refusal_of why, [])
  /\ status (CreateToken.refusal_of why) = 400
  /\ (forall other, CreateToken.refusal_of other = CreateToken.refusal_of why -> other = why)
  /\ (forall l' t' r',
        status (fst (CreateToken.create_token l' t' r')) = 400 ->
        snd (CreateToken.create_token l' t' r') = []
        /\ exists reason,
             fst (CreateToken.create_token l' t' r') = CreateToken.refusal_of reason)
  /\ (forall l' t' r',
        snd (CreateToken.create_token l' t' r') <> [] ->
        exists passed,
          getTransaction l' (CreateToken.paymentSignature r') = Resolved passed
          /\ CreateToken.verify r' passed = Resolved None).
Proof.
  intros Hf Hfails. repeat split.
  - apply (create_token_refused l t r Hf). now apply fails_refused.
  - destruct why; reflexivity.
  - intros other. apply refusal_of_injective.
  - now apply create_token_400.
  - now apply create_token_400.
  - intros l' t' r'. apply minting_requires_verified_payment.
Qed.

(** C1, as stated, fails.  A record with metadata that lists a single
    account, which is not the declared payer, makes the handler throw while
    it reads the receiver: the reply is the 500 of a failed creation, not a
    4xx that names the mismatch.  And for a body that leaves [expectedFee]
    out, a payment of one lamport is let through: the reply is 200 and three
    operations were carried out on the token program. *)
Lemma unjudged_payments_are_not_refused :
  accountKeys Scenario.lone_stranger_record = [Sample.stranger]
  /\ strict_eq_str Sample.stranger
       (CreateToken.userWallet (Sample.mint_request "paid" false false)) = false
  /\ CreateToken.create_token Scenario.lone_stranger_node Sample.program
       (Sample.mint_request "paid" false false)
     = (Json 500 (ErrorBody "Token creation failed."), [])
  /\ balance_decrease (Sample.balances 1) = 1%float
  /\ status (fst (CreateToken.create_token (Sample.node []) Sample.program
                    (Sample.unpriced_request "dust"))) = 200
  /\ List.length (snd (CreateToken.create_token (Sample.node []) Sample.program
                         (Sample.unpriced_request "dust"))) = 3.
Proof. repeat split; vm_compute; reflexivity. Qed.

(* ------------------------------------------------------------------ *)
(** * The two verification modes *)

Section Modes.

Import CreateToken.

Variable r : request.

Lemma qualifies_first_account txn m sender others :
  accountKeys txn = sender :: others ->
  VerifyPayment.qualifies (as_scan r) txn m
  = Resolved (strict_eq_str sender (userWallet r)
              && (expectedFee r * LAMPORTS_PER_SOL <=? balance_decrease m)%float).
Proof.
  intros Hk. unfold VerifyPayment.qualifies, element. rewrite Hk. reflexivity.
Qed.

(** C2, as the code has it: on a record with metadata that lists a sender
    and a receiver, whose balance decrease is a finite number of value
    [paid], and for a threshold [expectedFee * LAMPORTS_PER_SOL] that is a
    finite number of value [due], the address scan accepts exactly when the
    first account is the expected sender and [due <= paid], the sender and
    amount tests of reference mode; reference mode accepts exactly when the
    address scan does and, in addition, the second account is the operator
    address, which the address scan does not look at. *)
Theorem scan_mode_shares_sender_and_amount_tests
  txn m sender receiver others (paid due : Q) :
  meta txn = Some m ->
  accountKeys txn = sender :: receiver :: others ->
  Decimal.exact (balance_decrease m) = Some paid ->
  Decimal.exact (expectedFee r * LAMPORTS_PER_SOL) = Some due ->
  (VerifyPayment.qualifies (as_scan r) txn m = Resolved true
   <-> strict_eq_str sender (userWallet r) = true /\ (due <= paid)%Q)
  /\ (verify r (Some txn) = Resolved None
      <-> VerifyPayment.qualifies (as_scan r) txn m = Resolved true
          /\ receiver = DEV_WALLET).
Proof.
  intros Hm Hk Hpaid Hdue.
  destruct (@amount_test_exact _ _ _ _ Hpaid Hdue) as (_ & Hge & Hle).
  rewrite (qualifies_first_account _ m Hk), (verify_two_accounts r _ Hm Hk).
  rewrite <- Hle.
  assert (Hagree : (balance_decrease m <? expectedFee r * LAMPORTS_PER_SOL)%float
                   = negb (expectedFee r * LAMPORTS_PER_SOL <=? balance_decrease m)%float).
  { destruct (expectedFee r * LAMPORTS_PER_SOL <=? balance_decrease m)%float eqn:Hb.
    - apply Hge. now apply Hle.
    - apply not_false_iff_true. intros Hno. apply Hge, Hle in Hno. congruence. }
  rewrite Hagree.
  destruct (strict_eq_str sender (userWallet r)); simpl.
  - destruct (String.eqb_spec receiver DEV_WALLET) as [->|Hne]; simpl;
      destruct (expectedFee r * LAMPORTS_PER_SOL <=? balance_decrease m)%float;
      simpl; repeat split; try tauto; try congruence;
      intros [? ?]; congruence.
  - repeat split; try tauto; try congruence; intros [? ?]; congruence.
Qed.

(** Without a number to compare with, the two modes part: [x < NaN] and
    [x >= NaN] are both false, so reference mode finds nothing wrong with the
    amount and the address scan finds no match. *)
Lemma amount_test_without_a_number txn m sender others :
  meta txn = Some m ->
  accountKeys txn = sender :: DEV_WALLET :: others ->
  strict_eq_str sender (userWallet r) = true ->
  is_number (expectedFee r * LAMPORTS_PER_SOL) = false ->
  verify r (Some txn) = Resolved None
  /\ VerifyPayment.qualifies (as_scan r) txn m = Resolved false.
Proof.
  intros Hm Hk Hs Hnan.
  destruct (nan_ltb (balance_decrease m) _ Hnan) as [Hlt Hle].
  rewrite (qualifies_first_account _ m Hk), (verify_two_accounts r _ Hm Hk).
  rewrite Hs, String.eqb_refl, Hlt, Hle. split; reflexivity.
Qed.

End Modes.

(** C3, as stated, fails.  For a declared fee of 0.067 SOL, a payment from
    the payer to the operator of 67 000 000 lamports, the fee to the
    lamport, meets the three conditions and is refused as an incorrect
    amount: the product 0.067 * 1000000000 is the next number above
    67000000.  And for a body that leaves [expectedFee] out, so that no fee
    is declared, a payment of one lamport passes and the creation goes
    through. *)
Lemma exact_payment_is_refused_and_unpriced_passes :
  Decimal.represents (CreateToken.expectedFee Scenario.round_request) (67 # 1000) = true
  /\ (exists paid,
        Decimal.exact (balance_decrease (Sample.balances 67000000)) = Some paid
        /\ (paid == Amount.in_lamports (67 # 1000))%Q
        /\ CreateToken.conditions Scenario.round_request Scenario.round_payment
             (67 # 1000) paid)
  /\ CreateToken.verify Scenario.round_request (Some Scenario.round_payment)
     = Resolved (Some CreateToken.amount_mismatch)
  /\ CreateToken.create_token Scenario.round_node Sample.program Scenario.round_request
     = (Json 400 (ErrorBody "Incorrect payment amount."), [])
  /\ (forall fee,
        Decimal.represents (CreateToken.expectedFee (Sample.unpriced_request "dust")) fee
        = false)
  /\ CreateToken.verify (Sample.unpriced_request "dust") (Some Sample.dust_payment)
     = Resolved None
  /\ status (fst (CreateToken.create_token (Sample.node []) Sample.program
                    (Sample.unpriced_request "dust"))) = 200.
Proof.
  split; [vm_compute; reflexivity|]. split.
  { eexists. split; [vm_compute; reflexivity|]. split.
    - vm_compute. reflexivity.
    - split.
      + exists Sample.wallet, [Sample.system_program]. split; reflexivity.
      + apply Qle_bool_iff. vm_compute. reflexivity. }
  split; [vm_compute; reflexivity|]. split; [vm_compute; reflexivity|].
  split; [intros fee; vm_compute; reflexivity|].
  split; vm_compute; reflexivity.
Qed.

(** C2, as stated, fails.  A transfer by the payer of 109 999 999 lamports to
    somebody else and of one lamport to the operator is in the operator's
    history and lists the operator third.  For the same payer and fee,
    /verify-payment replies [paid: true] and /create-token refuses the
    payment for its receiver. *)
Lemma operator_listed_third_passes_the_scan_only :
  In DEV_WALLET (accountKeys Scenario.detour_payment)
  /\ getSignaturesForAddress Scenario.detour_node DEV_WALLET HISTORY_LIMIT
     = Resolved ["detour"%string]
  /\ CreateToken.as_scan (Sample.mint_request "detour" false false) = Sample.scan_request
  /\ VerifyPayment.verify_payment Scenario.detour_node Sample.scan_request
     = (Sent (Json 200 (PaidBody true)), ["detour"%string])
  /\ CreateToken.create_token Scenario.detour_node Sample.program
       (Sample.mint_request "detour" false false)
     = (Json 400 (ErrorBody "Payment receiver does not match dev wallet."), [])
  /\ ~ (VerifyPayment.matches Scenario.detour_node
          (CreateToken.as_scan (Sample.mint_request "detour" false false)) "detour" = true
        <-> CreateToken.verify (Sample.mint_request "detour" false false)
              (Some Scenario.detour_payment)
            = Resolved None).
Proof.
  assert (Hq : VerifyPayment.matches Scenario.detour_node
                 (CreateToken.as_scan (Sample.mint_request "detour" false false))
                 "detour" = true) by (vm_compute; reflexivity).
  assert (Hv : CreateToken.verify (Sample.mint_request "detour" false false)
                 (Some Scenario.detour_payment)
               = Resolved (Some CreateToken.receiver_mismatch))
    by (vm_compute; reflexivity).
  split; [simpl; auto|]. split; [reflexivity|]. split; [reflexivity|].
  split; [vm_compute; reflexivity|]. split; [vm_compute; reflexivity|].
  intros [Himp _]. specialize (Himp Hq). rewrite Hv in Himp. discriminate Himp.
Qed.

(** C4, as stated, fails.  On a record with metadata that lists a single
    account, which is not the declared payer, the verification step throws
    while it reads the receiver and the reply is the 500 of a failed
    creation, not the sender message.  And with the sender and the receiver
    right and no fee declared, a payment of one lamport is given no reason
    at all. *)
Lemma lone_account_gets_the_generic_failure :
  accountKeys Scenario.lone_stranger_record = [Sample.stranger]
  /\ strict_eq_str Sample.stranger
       (CreateToken.userWallet (Sample.mint_request "paid" false false)) = false
  /\ CreateToken.verify (Sample.mint_request "paid" false false)
       (Some Scenario.lone_stranger_record) = Thrown
  /\ CreateToken.create_token Scenario.lone_stranger_node Sample.program
       (Sample.mint_request "paid" false false)
     = (Json 500 (ErrorBody "Token creation failed."), [])
  /\ CreateToken.verify (Sample.unpriced_request "dust") (Some Sample.dust_payment)
     = Resolved None.
Proof. repeat split; vm_compute; reflexivity. Qed.

(* ------------------------------------------------------------------ *)
(** * Properties of the history scan *)

Section Scan.

Import VerifyPayment.

Variables (c : Ledger.client) (r : request).

(** The three ways one turn of the loop can go without an exception. *)
Lemma scan_skip sig rest :
  unfetchable c sig = true ->
  scan c r (sig :: rest) = (fst (scan c r rest), sig :: snd (scan c r rest)).
Proof.
  unfold unfetchable. simpl.
  destruct (getTransaction c (JStr sig)) as [[txn|]|]; [destruct (meta txn)| |];
    try discriminate; intros _; destruct (scan c r rest); reflexivity.
Qed.

Lemma scan_hit sig rest :
  matches c r sig = true -> scan c r (sig :: rest) = (Resolved true, [sig]).
Proof.
  unfold matches. simpl.
  destruct (getTransaction c (JStr sig)) as [[txn|]|]; try discriminate.
  destruct (meta txn) as [m|]; try discriminate.
  destruct (qualifies r txn m) as [[|]|]; try discriminate. reflexivity.
Qed.

Lemma scan_miss sig rest :
  answers c r sig = true -> matches c r sig = false ->
  scan c r (sig :: rest) = (fst (scan c r rest), sig :: snd (scan c r rest)).
Proof.
  unfold answers, matches. simpl.
  destruct (getTransaction c (JStr sig)) as [[txn|]|]; try discriminate.
  - destruct (meta txn) as [m|].
    + destruct (qualifies r txn m) as [[|]|]; try discriminate.
      intros _ _. destruct (scan c r rest); reflexivity.
    + intros _ _. destruct (scan c r rest); reflexivity.
  - intros _ _. destruct (scan c r rest); reflexivity.
Qed.

Lemma unfetchable_no_match sig :
  unfetchable c sig = true -> matches c r sig = false /\ answers c r sig = true.
Proof.
  unfold unfetchable, matches, answers.
  destruct (getTransaction c (JStr sig)) as [[txn|]|]; [destruct (meta txn)| |];
    try discriminate; auto.
Qed.

(** The result of a turn is decided by the record and by the rest's result. *)
Lemma scan_cons_fst sig l1 l2 :
  fst (scan c r l1) = fst (scan c r l2) ->
  fst (scan c r (sig :: l1)) = fst (scan c r (sig :: l2)).
Proof.
  intros H. simpl.
  destruct (getTransaction c (JStr sig)) as [[txn|]|]; try reflexivity.
  - destruct (meta txn) as [m|].
    + destruct (qualifies r txn m) as [[|]|]; try reflexivity.
      destruct (scan c r l1), (scan c r l2); exact H.
    + destruct (scan c r l1), (scan c r l2); exact H.
  - destruct (scan c r l1), (scan c r l2); exact H.
Qed.

(** The loop over signatures that all answer: it stops at the first match,
    having fetched the signatures up to it, or runs through the list. *)
Lemma scan_answering (signatures : list string) :
  (forall sig, In sig signatures -> answers c r sig = true) ->
  exists paid fetched,
    scan c r signatures = (Resolved paid, fetched)
    /\ paid = existsb (matches c r) signatures
    /\ (exists rest, signatures = fetched ++ rest)
    /\ (paid = true ->
        exists earlier sig,
          fetched = earlier ++ [sig]
          /\ matches c r sig = true
          /\ existsb (matches c r) earlier = false)
    /\ (paid = false -> fetched = signatures).
Proof.
  induction signatures as [|sig rest IH]; intros Hanswers.
  - exists false, []. simpl. repeat split; try discriminate. now exists [].
  - destruct (matches c r sig) eqn:Hmatch.
    + exists true, [sig]. rewrite (scan_hit sig rest Hmatch). simpl. rewrite Hmatch.
      repeat split; try discriminate.
      * now exists rest.
      * intros _. exists [], sig. auto.
    + destruct IH as (paid & fetched & Hscan & Hpaid & (later & Hprefix) & Htrue & Hfalse).
      { intros s Hs. apply Hanswers. now right. }
      exists paid, (sig :: fetched).
      rewrite (scan_miss sig rest (Hanswers sig (or_introl eq_refl)) Hmatch), Hscan.
      simpl. rewrite Hmatch. simpl. repeat split; auto.
      * exists later. now rewrite Hprefix at 1.
      * intros Hp. destruct (Htrue Hp) as (earlier & s & -> & Hs & Hearlier).
        exists (sig :: earlier), s. simpl. rewrite Hmatch. auto.
      * intros Hp. now rewrite (Hfalse Hp).
Qed.

Lemma scan_throw sig rest :
  answers c r sig = false -> scan c r (sig :: rest) = (Thrown, [sig]).
Proof.
  unfold answers. simpl.
  destruct (getTransaction c (JStr sig)) as [[txn|]|]; try discriminate.
  - destruct (meta txn) as [m|]; try discriminate.
    destruct (qualifies r txn m) as [[|]|]; try discriminate. reflexivity.
  - reflexivity.
Qed.

(** What the loop fetched is an initial stretch of the signatures, however
    it ended. *)
Lemma scan_prefix (signatures : list string) :
  exists rest, signatures = snd (scan c r signatures) ++ rest.
Proof.
  induction signatures as [|sig rest IH].
  - now exists [].
  - destruct IH as [later Hlater].
    destruct (answers c r sig) eqn:Ha.
    + destruct (matches c r sig) eqn:Hm.
      * rewrite (scan_hit sig rest Hm). now exists rest.
      * rewrite (scan_miss sig rest Ha Hm). exists later. simpl. now rewrite <- Hlater.
    + rewrite (scan_throw sig rest Ha). now exists rest.
Qed.

(** The loop returns [true] only at a first match. *)
Lemma scan_replied_true (signatures fetched : list string) :
  scan c r signatures = (Resolved true, fetched) ->
  exists earlier sig,
    fetched = earlier ++ [sig]
    /\ matches c r sig = true
    /\ existsb (matches c r) earlier = false.
Proof.
  revert fetched. induction signatures as [|sig rest IH]; intros fetched.
  - simpl. intros H. inversion H.
  - destruct (answers c r sig) eqn:Ha.
    + destruct (matches c r sig) eqn:Hm.
      * rewrite (scan_hit sig rest Hm). intros H. inversion H. exists [], sig. auto.
      * rewrite (scan_miss sig rest Ha Hm). intros H. inversion H as [[Hfst Hsnd]].
        destruct (IH (snd (scan c r rest))) as (earlier & s & Hf & Hs & He).
        { rewrite <- Hfst. now destruct (scan c r rest). }
        exists (sig :: earlier), s. rewrite Hf. simpl. rewrite Hm. auto.
    + rewrite (scan_throw sig rest Ha). intros H. inversion H.
Qed.

(** The loop returns [false] only after the whole list, none of it a match. *)
Lemma scan_replied_false (signatures fetched : list string) :
  scan c r signatures = (Resolved false, fetched) ->
  fetched = signatures /\ existsb (matches c r) signatures = false.
Proof.
  revert fetched. induction signatures as [|sig rest IH]; intros fetched.
  - simpl. intros H. inversion H. auto.
  - destruct (answers c r sig) eqn:Ha.
    + destruct (matches c r sig) eqn:Hm.
      * rewrite (scan_hit sig rest Hm). intros H. inversion H.
      * rewrite (scan_miss sig rest Ha Hm). intros H. inversion H as [[Hfst Hsnd]].
        destruct (IH (snd (scan c r rest))) as (Hf & He).
        { rewrite <- Hfst. now destruct (scan c r rest). }
        simpl. rewrite Hm, He, Hf. auto.
    + rewrite (scan_throw sig rest Ha). intros H. inversion H.
Qed.

(** A first match, reached through records that answer, ends the loop. *)
Lemma scan_first_match (earlier : list string) (sig : string) (later : list string) :
  (forall s, In s earlier -> answers c r s = true /\ matches c r s = false) ->
  matches c r sig = true ->
  scan c r (earlier ++ sig :: later) = (Resolved true, earlier ++ [sig]).
Proof.
  intros He Hm. induction earlier as [|e earlier IH]; simpl app.
  - now apply scan_hit.
  - destruct (He e (or_introl eq_refl)) as [Hea Hem].
    rewrite (scan_miss e _ Hea Hem), IH; [reflexivity|].
    intros s Hs. apply He. now right.
Qed.

(** Records that answer and do not match are all gone through. *)
Lemma scan_no_match (signatures : list string) :
  (forall s, In s signatures -> answers c r s = true /\ matches c r s = false) ->
  scan c r signatures = (Resolved false, signatures).
Proof.
  induction signatures as [|sig rest IH]; intros H.
  - reflexivity.
  - destruct (H sig (or_introl eq_refl)) as [Ha Hm].
    rewrite (scan_miss sig rest Ha Hm), IH; [reflexivity|].
    intros s Hs. apply H. now right.
Qed.

(** When the signature query resolves, the handler is the loop over the
    newest [HISTORY_LIMIT] signatures. *)
Lemma verify_payment_window (h : list string) :
  history c DEV_WALLET = Resolved h ->
  verify_payment c r =
  (match fst (scan c r (firstn HISTORY_LIMIT h)) with
   | Resolved paid => Sent (Json 200 (PaidBody paid))
   | Thrown => Escaped
   end, snd (scan c r (firstn HISTORY_LIMIT h))).
Proof.
  intros Hh. unfold verify_payment, getSignaturesForAddress, JS.bind. rewrite Hh.
  destruct (scan c r (firstn HISTORY_LIMIT h)); reflexivity.
Qed.

(** Whatever the handler replies is a 200 with a boolean [paid]. *)
Lemma verify_payment_only_replies_paid (resp : response) :
  fst (verify_payment c r) = Sent resp -> exists paid, resp = Json 200 (PaidBody paid).
Proof.
  unfold verify_payment.
  destruct (getSignaturesForAddress c DEV_WALLET HISTORY_LIMIT) as [signatures|];
    [|discriminate].
  destruct (scan c r signatures) as [[paid|] fetched]; simpl; [|discriminate].
  intros H. inversion H. now exists paid.
Qed.

End Scan.

(** The loop sees the node only through the fetches it makes. *)
Lemma scan_same_fetches (c c' : Ledger.client) (r : VerifyPayment.request)
      (signatures : list string) :
  getTransaction c' = getTransaction c ->
  VerifyPayment.scan c' r signatures = VerifyPayment.scan c r signatures.
Proof.
  intros Hsame. induction signatures as [|sig rest IH]; simpl.
  - reflexivity.
  - now rewrite Hsame, IH.
Qed.

(** C6: the scan looks only at the newest 50 signatures of the operator's
    history, newest first: what it fetched is an initial stretch of the
    history, at most 50 long.  It replies [paid: true] only at a first
    record that passes the test, having fetched nothing after it, and does so
    whenever the records before that one answered; it replies [paid: false]
    only after the whole window, none of it a match, and does so whenever the
    window answers without a match.  What the history holds beyond the
    window changes nothing. *)
Theorem history_scan_stops_at_first_match_in_window
  (c : Ledger.client) (r : VerifyPayment.request) (h : list string) :
  history c DEV_WALLET = Resolved h ->
  (exists later, h = snd (VerifyPayment.verify_payment c r) ++ later)
  /\ List.length (snd (VerifyPayment.verify_payment c r)) <= 50
  /\ (fst (VerifyPayment.verify_payment c r) = Sent (Json 200 (PaidBody true)) ->
      exists earlier sig,
        snd (VerifyPayment.verify_payment c r) = earlier ++ [sig]
        /\ VerifyPayment.matches c r sig = true
        /\ existsb (VerifyPayment.matches c r) earlier = false)
  /\ (forall earlier sig later,
        firstn HISTORY_LIMIT h = earlier ++ sig :: later ->
        (forall s, In s earlier ->
                   VerifyPayment.answers c r s = true
                   /\ VerifyPayment.matches c r s = false) ->
        VerifyPayment.matches c r sig = true ->
        VerifyPayment.verify_payment c r
        = (Sent (Json 200 (PaidBody true)), earlier ++ [sig]))
  /\ (fst (VerifyPayment.verify_payment c r) = Sent (Json 200 (PaidBody false)) ->
      snd (VerifyPayment.verify_payment c r) = firstn HISTORY_LIMIT h
      /\ existsb (VerifyPayment.matches c r) (firstn HISTORY_LIMIT h) = false)
  /\ ((forall s, In s (firstn HISTORY_LIMIT h) ->
                 VerifyPayment.answers c r s = true
                 /\ VerifyPayment.matches c r s = false) ->
      VerifyPayment.verify_payment c r
      = (Sent (Json 200 (PaidBody false)), firstn HISTORY_LIMIT h))
  /\ (forall c' older,
        getTransaction c' = getTransaction c ->
        List.length (firstn HISTORY_LIMIT h) = HISTORY_LIMIT ->
        history c' DEV_WALLET = Resolved (firstn HISTORY_LIMIT h ++ older) ->
        VerifyPayment.verify_payment c' r = VerifyPayment.verify_payment c r).
Proof.
  intros Hh. rewrite (@verify_payment_window c r h Hh). cbn [fst snd].
  destruct (scan_prefix c r (firstn HISTORY_LIMIT h)) as [rest Hprefix].
  split; [|split; [|split; [|split; [|split; [|split]]]]].
  - exists (rest ++ skipn HISTORY_LIMIT h).
    rewrite app_assoc, <- Hprefix. symmetry. apply firstn_skipn.
  - assert (Hlen : List.length (firstn HISTORY_LIMIT h) <= HISTORY_LIMIT)
      by apply List.firstn_le_length.
    rewrite Hprefix, List.length_app in Hlen.
    change (HISTORY_LIMIT) with 50 in Hlen at 2. lia.
  - destruct (VerifyPayment.scan c r (firstn HISTORY_LIMIT h)) as [[[|]|] fetched] eqn:Hscan;
      simpl; intros H; try discriminate H.
    exact (scan_replied_true c r _ Hscan).
  - intros earlier sig later Hwindow Hearlier Hsig.
    rewrite Hwindow, (scan_first_match c r earlier sig later Hearlier Hsig).
    reflexivity.
  - destruct (VerifyPayment.scan c r (firstn HISTORY_LIMIT h)) as [[[|]|] fetched] eqn:Hscan;
      simpl; intros H; try discriminate H.
    exact (scan_replied_false c r _ Hscan).
  - intros Hwindow. rewrite (scan_no_match c r _ Hwindow). reflexivity.
  - intros c' older Hsame Hfull Hh'.
    rewrite (@verify_payment_window c' r _ Hh'), (@scan_same_fetches c c' r _ Hsame).
    rewrite firstn_app, Hfull, Nat.sub_diag, firstn_O, app_nil_r.
    now rewrite firstn_firstn, Nat.min_id.
Qed.

(** C7, as stated, fails: when the node cannot be reached the handler sends
    no reply at all. *)
Lemma unreachable_node_gets_no_reply :
  VerifyPayment.verify_payment Sample.unreachable Sample.scan_request = (Escaped, [])
  /\ ~ (exists paid,
          fst (VerifyPayment.verify_payment Sample.unreachable Sample.scan_request)
          = Sent (Json 200 (PaidBody paid))).
Proof.
  split; [reflexivity|]. intros [paid H]. discriminate H.
Qed.

(** C7, as the code has it: whenever the node answers the signature query
    and every fetch of the window, the reply is 200 with a boolean [paid],
    which is [false] exactly when no record of the window passes the test;
    and whatever the node does, a reply of this handler is never anything
    but a 200 with a boolean [paid]. *)
Theorem verify_payment_replies_200_when_ledger_answers
  (c : Ledger.client) (r : VerifyPayment.request) (h : list string) :
  history c DEV_WALLET = Resolved h ->
  (forall sig, In sig (firstn HISTORY_LIMIT h) -> VerifyPayment.answers c r sig = true) ->
  exists paid,
    fst (VerifyPayment.verify_payment c r) = Sent (Json 200 (PaidBody paid))
    /\ status (Json 200 (PaidBody paid)) = 200
    /\ (paid = false
        <-> forall sig, In sig (firstn HISTORY_LIMIT h) ->
                        VerifyPayment.matches c r sig = false)
    /\ (forall c' r' resp,
          fst (VerifyPayment.verify_payment c' r') = Sent resp ->
          exists paid', resp = Json 200 (PaidBody paid')).
Proof.
  intros Hh Hanswers.
  destruct (scan_answering c r (firstn HISTORY_LIMIT h) Hanswers)
    as (paid & fetched & Hscan & Hpaid & _).
  exists paid.
  rewrite (@verify_payment_window c r h Hh), Hscan.
  split; [reflexivity|]. split; [reflexivity|]. split; [split|].
  - intros Hp sig Hin. rewrite Hp in Hpaid.
    destruct (VerifyPayment.matches c r sig) eqn:Hm; [|reflexivity].
    symmetry in Hpaid. rewrite <- not_true_iff_false in Hpaid.
    exfalso. apply Hpaid. apply existsb_exists. eauto.
  - intros Hnone. rewrite Hpaid. apply not_true_iff_false.
    intros Hex. apply existsb_exists in Hex. destruct Hex as (sig & Hin & Hm).
    rewrite (Hnone sig Hin) in Hm. discriminate Hm.
  - intros c' r'. apply verify_payment_only_replies_paid.
Qed.

(** C9: a signature whose fetch gives no transaction, or a transaction
    without metadata, is passed over: the loop goes on with the next
    signature and ends as it would have without that record, wherever in the
    window the record stands; and such a record is not a match. *)
Theorem unfetchable_record_is_skipped
  (c : Ledger.client) (r : VerifyPayment.request) (sig : string) (rest : list string) :
  VerifyPayment.unfetchable c sig = true ->
  VerifyPayment.scan c r (sig :: rest)
  = (fst (VerifyPayment.scan c r rest), sig :: snd (VerifyPayment.scan c r rest))
  /\ VerifyPayment.matches c r sig = false
  /\ (forall before,
        fst (VerifyPayment.scan c r (before ++ sig :: rest))
        = fst (VerifyPayment.scan c r (before ++ rest))).
Proof.
  intros Hu. split; [|split].
  - now apply scan_skip.
  - now apply unfetchable_no_match.
  - induction before as [|b before IH].
    + simpl app. now rewrite (scan_skip c r sig rest Hu).
    + simpl app. now apply scan_cons_fst.
Qed.

(* ------------------------------------------------------------------ *)
(** * Authority revocation *)

Section Revocation.

Import CreateToken.

Variables (l : Ledger.client) (t : Token.client) (r : request).

(** A successful run, step by step: every call resolved, and the log holds
    the calls in the handler's order. *)
Lemma create_token_success mint tokenAccount message log :
  create_token l t r = (Json 200 (MintBody mint tokenAccount message), log) ->
  exists payer opts minted,
    fromSecretKey t (payerSecret r) = Resolved payer
    /\ options r = Some opts
    /\ log =
       [(CreateMint payer payer payer (decimals r), mint);
        (GetOrCreateAssociatedAccountInfo mint payer, tokenAccount);
        (MintTo mint tokenAccount payer (supply r), minted)]
       ++ (if truthy (revokeMint opts)
           then match perform t (SetAuthority mint mint None MintTokens payer) with
                | Resolved done => [(SetAuthority mint mint None MintTokens payer, done)]
                | Thrown => []
                end
           else [])
       ++ (if truthy (revokeFreeze opts)
           then match perform t (SetAuthority mint mint None FreezeAccount payer) with
                | Resolved done => [(SetAuthority mint mint None FreezeAccount payer, done)]
                | Thrown => []
                end
           else [])
    /\ (truthy (revokeMint opts) = true ->
        perform t (SetAuthority mint mint None MintTokens payer) <> Thrown)
    /\ (truthy (revokeFreeze opts) = true ->
        perform t (SetAuthority mint mint None FreezeAccount payer) <> Thrown).
Proof.
  unfold create_token, attempt, bind, await, call, ret.
  destruct (getTransaction l (paymentSignature r)) as [fetched|]; [|discriminate].
  destruct (verify r fetched) as [[resp|]|] eqn:Hv; [| |discriminate].
  { destruct fetched as [txn|]; simpl in Hv.
    - destruct (meta txn); [|inversion Hv; discriminate].
      destruct (element (accountKeys txn) 0); simpl in Hv; [|discriminate].
      destruct (element (accountKeys txn) 1); simpl in Hv; [|discriminate].
      repeat match type of Hv with
             | (if ?b then _ else _) = _ => destruct b
             end; inversion Hv; discriminate.
    - inversion Hv; discriminate. }
  destruct (fromSecretKey t (payerSecret r)) as [payer|]; [|discriminate].
  destruct (perform t (CreateMint payer payer payer (decimals r))) as [mint'|];
    [|discriminate].
  destruct (perform t (GetOrCreateAssociatedAccountInfo mint' payer)) as [account'|];
    [|discriminate].
  destruct (perform t (MintTo mint' account' payer (supply r))) as [minted|];
    [|discriminate].
  destruct (options r) as [opts|]; [|discriminate].
  destruct (truthy (revokeMint opts)) eqn:Hrm;
    [destruct (perform t (SetAuthority mint' mint' None MintTokens payer)) as [d1|] eqn:H1;
       [|discriminate]|];
    (destruct (truthy (revokeFreeze opts)) eqn:Hrf;
     [destruct (perform t (SetAuthority mint' mint' None FreezeAccount payer)) as [d2|] eqn:H2;
        [|discriminate]|]);
    simpl; intros H; inversion H; subst; exists payer, opts, minted;
    rewrite ?Hrm, ?Hrf, ?H1, ?H2; repeat split; try reflexivity;
    try discriminate; congruence.
Qed.

End Revocation.

(** C8: after a successful creation the mint's authorities follow the two
    flags: the mint authority is none when [revokeMint] is set and the
    caller's public key otherwise, and likewise the freeze authority with
    [revokeFreeze]; the set-authority operations carried out are exactly
    those of the set flags, in the handler's order.  With both flags unset
    there is no set-authority operation and both authorities are the
    caller's public key, as the mint was created first in the run. *)
Theorem authorities_follow_revocation_flags
  (l : Ledger.client) (t : Token.client) (r : CreateToken.request)
  (mint tokenAccount message : string) (log : list entry) :
  CreateToken.create_token l t r = (Json 200 (MintBody mint tokenAccount message), log) ->
  exists payer opts,
    fromSecretKey t (CreateToken.payerSecret r) = Resolved payer
    /\ CreateToken.options r = Some opts
    /\ (exists later,
          log = (CreateMint payer payer payer (CreateToken.decimals r), mint) :: later)
    /\ authorities mint log
       = Some {| mintAuthority :=
                   if truthy (CreateToken.revokeMint opts) then None else Some payer;
                 freezeAuthority :=
                   if truthy (CreateToken.revokeFreeze opts) then None else Some payer |}
    /\ map fst (filter is_set_authority log)
       = (if truthy (CreateToken.revokeMint opts)
          then [SetAuthority mint mint None MintTokens payer] else [])
         ++ (if truthy (CreateToken.revokeFreeze opts)
             then [SetAuthority mint mint None FreezeAccount payer] else [])
    /\ (truthy (CreateToken.revokeMint opts) = false ->
        truthy (CreateToken.revokeFreeze opts) = false ->
        filter is_set_authority log = []
        /\ authorities mint log
           = Some {| mintAuthority := Some payer; freezeAuthority := Some payer |}).
Proof.
  intros Hrun.
  destruct (create_token_success l t r Hrun)
    as (payer & opts & minted & Hkey & Hopts & Hlog & Hm & Hf).
  exists payer, opts. split; [exact Hkey|]. split; [exact Hopts|].
  destruct (truthy (CreateToken.revokeMint opts)) eqn:Hrm;
    [destruct (perform t (SetAuthority mint mint None MintTokens payer)) as [d1|];
       [|exfalso; now apply Hm]|];
    (destruct (truthy (CreateToken.revokeFreeze opts)) eqn:Hrf;
     [destruct (perform t (SetAuthority mint mint None FreezeAccount payer)) as [d2|];
        [|exfalso; now apply Hf]|]);
    subst log; unfold authorities; simpl; rewrite ?String.eqb_refl;
    repeat split; eauto; discriminate.
Qed.

(* ------------------------------------------------------------------ *)
(** * The theorems at concrete requests *)

(** A payment sent by somebody else: refused as a sender mismatch, nothing
    minted. *)
Lemma failed_verification_is_refused_before_any_minting_witness :
  CreateToken.fails (Sample.mint_request "foreign" true true)
    (Some Sample.foreign_payment) CreateToken.WrongSender
  /\ CreateToken.create_token (Sample.node []) Sample.program
       (Sample.mint_request "foreign" true true)
     = (Json 400 (ErrorBody "Payment sender does not match wallet."), []).
Proof.
  assert (Hfails : CreateToken.fails (Sample.mint_request "foreign" true true)
                     (Some Sample.foreign_payment) CreateToken.WrongSender).
  { eapply CreateToken.fails_sender; reflexivity. }
  split; [exact Hfails|].
  exact (proj1 (@failed_verification_is_refused_before_any_minting
                  (Sample.node []) Sample.program
                  (Sample.mint_request "foreign" true true)
                  (Some Sample.foreign_payment) CreateToken.WrongSender
                  eq_refl Hfails)).
Defined.

(** The exact payment of a 0.11 SOL quote passes in both modes; its receiver
    is the operator. *)
Lemma scan_mode_shares_sender_and_amount_tests_witness :
  (exists paid due,
      Decimal.exact (balance_decrease (Sample.balances 110000000)) = Some paid
      /\ Decimal.exact (0.11 * LAMPORTS_PER_SOL) = Some due
      /\ (due <= paid)%Q)
  /\ (CreateToken.verify (Sample.mint_request "paid" false false) (Some Sample.payment)
      = Resolved None
      <-> VerifyPayment.qualifies
            (CreateToken.as_scan (Sample.mint_request "paid" false false))
            Sample.payment (Sample.balances 110000000)
          = Resolved true
          /\ DEV_WALLET = DEV_WALLET).
Proof.
  eassert (Hpaid : Decimal.exact (balance_decrease (Sample.balances 110000000))
                   = Some _) by (vm_compute; reflexivity).
  eassert (Hdue : Decimal.exact (CreateToken.expectedFee
                                   (Sample.mint_request "paid" false false)
                                 * LAMPORTS_PER_SOL)
                  = Some _) by (vm_compute; reflexivity).
  split.
  - eexists. eexists. split; [exact Hpaid|]. split; [exact Hdue|].
    apply Qle_bool_iff. vm_compute. reflexivity.
  - exact (proj2 (@scan_mode_shares_sender_and_amount_tests
                    (Sample.mint_request "paid" false false) Sample.payment
                    (Sample.balances 110000000) Sample.wallet DEV_WALLET
                    [Sample.system_program] _ _ eq_refl eq_refl Hpaid Hdue)).
Defined.

(** A quote of 0.11 SOL, whose product is 110000000 lamports exactly:
    110000000 lamports pass. *)
Lemma reference_verification_passes_iff_three_conditions_witness :
  Decimal.represents 0.11 (11 # 100) = true
  /\ (exists due,
        Decimal.exact (0.11 * LAMPORTS_PER_SOL) = Some due
        /\ (due == Amount.in_lamports (11 # 100))%Q)
  /\ CreateToken.verify (Sample.mint_request "paid" false false) (Some Sample.payment)
     = Resolved None.
Proof.
  eassert (Hpaid : Decimal.exact (balance_decrease (Sample.balances 110000000))
                   = Some _) by (vm_compute; reflexivity).
  eassert (Hdue : Decimal.exact (CreateToken.expectedFee
                                   (Sample.mint_request "paid" false false)
                                 * LAMPORTS_PER_SOL)
                  = Some _) by (vm_compute; reflexivity).
  assert (Hfee : Decimal.represents
                   (CreateToken.expectedFee (Sample.mint_request "paid" false false))
                   (11 # 100) = true) by (vm_compute; reflexivity).
  assert (Hexact : ((7381975040000000 # 67108864) == Amount.in_lamports (11 # 100))%Q)
    by (vm_compute; reflexivity).
  split; [exact Hfee|]. split; [eexists; split; [exact Hdue | exact Hexact]|].
  apply (proj2 (@reference_verification_passes_iff_three_conditions
                  (Sample.mint_request "paid" false false) Sample.payment
                  (Sample.balances 110000000) _ _ eq_refl Hpaid Hdue)
           (11 # 100) Hfee Hexact).
  - exists Sample.wallet, [Sample.system_program]. split; reflexivity.
  - exact Hexact.
Defined.

(** A quote of 0.11 SOL: 109999999 lamports are refused as the wrong amount. *)
Example one_lamport_short_is_refused :
  (balance_decrease (Sample.balances 109999999) =? 110000000 - 1)%float = true
  /\ CreateToken.create_token (Sample.node []) Sample.program
       (Sample.mint_request "short" false false)
     = (Json 400 (ErrorBody "Incorrect payment amount."), []).
Proof. split; vm_compute; reflexivity. Qed.

(** A payment sent by somebody else, to the operator and of the right
    amount: the sender message. *)
Lemma each_mismatch_reports_its_own_reason_witness :
  CreateToken.verify (Sample.mint_request "foreign" false false)
    (Some Sample.foreign_payment)
  = Resolved (Some (Json 400 (ErrorBody "Payment sender does not match wallet."))).
Proof.
  exact (proj1 (@each_mismatch_reports_its_own_reason
                  (Sample.mint_request "foreign" false false) Sample.foreign_payment
                  (Sample.balances 110000000) Sample.stranger DEV_WALLET
                  [Sample.system_program] eq_refl eq_refl)
           eq_refl).
Defined.

Lemma crowded_window_misses (sig : string) :
  In sig (firstn HISTORY_LIMIT Sample.crowded) ->
  VerifyPayment.answers (Sample.node Sample.crowded) Sample.scan_request sig = true
  /\ VerifyPayment.matches (Sample.node Sample.crowded) Sample.scan_request sig = false.
Proof.
  change (firstn HISTORY_LIMIT Sample.crowded) with (repeat "foreign"%string 50).
  intros Hin. apply repeat_spec in Hin. subst sig. split; reflexivity.
Defined.

(** The payer's transfer is the 51st newest of the history: it passes the
    test, and the scan replies [paid: false] after fifty fetches. *)
Lemma history_scan_stops_at_first_match_in_window_witness :
  VerifyPayment.matches (Sample.node Sample.crowded) Sample.scan_request "paid" = true
  /\ nth_error Sample.crowded 50 = Some "paid"%string
  /\ VerifyPayment.verify_payment (Sample.node Sample.crowded) Sample.scan_request
     = (Sent (Json 200 (PaidBody false)), repeat "foreign"%string 50).
Proof.
  split; [reflexivity|]. split; [reflexivity|].
  exact (proj1 (proj2 (proj2 (proj2 (proj2 (proj2
           (@history_scan_stops_at_first_match_in_window
              (Sample.node Sample.crowded) Sample.scan_request Sample.crowded
              eq_refl))))))
           crowded_window_misses).
Defined.

Lemma mixed_window_answers (sig : string) :
  In sig (firstn HISTORY_LIMIT ["bare"; "unknown"; "short"; "paid"]%string) ->
  VerifyPayment.answers
    (Sample.node ["bare"; "unknown"; "short"; "paid"]%string) Sample.scan_request sig
  = true.
Proof.
  simpl. intros [<-|[<-|[<-|[<-|[]]]]]; reflexivity.
Defined.

(** A window of four signatures that the node answers. *)
Lemma verify_payment_replies_200_when_ledger_answers_witness :
  exists paid,
    fst (VerifyPayment.verify_payment
           (Sample.node ["bare"; "unknown"; "short"; "paid"]%string) Sample.scan_request)
    = Sent (Json 200 (PaidBody paid)).
Proof.
  destruct (@verify_payment_replies_200_when_ledger_answers
              (Sample.node ["bare"; "unknown"; "short"; "paid"]%string)
              Sample.scan_request ["bare"; "unknown"; "short"; "paid"]%string
              eq_refl mixed_window_answers)
    as (paid & Hreply & _).
  exists paid. exact Hreply.
Defined.

(** A paid request that revokes the mint authority only. *)
Lemma authorities_follow_revocation_flags_witness :
  exists log,
    CreateToken.create_token (Sample.node []) Sample.program
      (Sample.mint_request "paid" true false)
    = (Json 200 (MintBody "mint-address" "holding-address" "Token created successfully!"),
       log)
    /\ authorities "mint-address" log
       = Some {| mintAuthority := None; freezeAuthority := Some Sample.owner |}.
Proof.
  exists (snd (CreateToken.create_token (Sample.node []) Sample.program
                 (Sample.mint_request "paid" true false))).
  split; [reflexivity|].
  destruct (@authorities_follow_revocation_flags
              (Sample.node []) Sample.program (Sample.mint_request "paid" true false)
              "mint-address" "holding-address" "Token created successfully!"
              (snd (CreateToken.create_token (Sample.node []) Sample.program
                      (Sample.mint_request "paid" true false)))
              eq_refl)
    as (payer & opts & Hkey & Hopts & _ & Hauth & _).
  rewrite Hauth. inversion Hkey. inversion Hopts. reflexivity.
Defined.

(** A record without metadata at the head of the window. *)
Lemma unfetchable_record_is_skipped_witness :
  VerifyPayment.unfetchable (Sample.node []) "bare" = true
  /\ VerifyPayment.scan (Sample.node []) Sample.scan_request ["bare"; "unknown"; "paid"]%string
     = (fst (VerifyPayment.scan (Sample.node []) Sample.scan_request ["unknown"; "paid"]%string),
        "bare"%string
        :: snd (VerifyPayment.scan (Sample.node []) Sample.scan_request
                  ["unknown"; "paid"]%string)).
Proof.
  split; [reflexivity|].
  exact (proj1 (@unfetchable_record_is_skipped (Sample.node []) Sample.scan_request
                  "bare" ["unknown"; "paid"]%string eq_refl)).
Defined.

(* ------------------------------------------------------------------ *)
(** * More on the fee calculator *)

Section Quotes.

Import Fee Quote.

Lemma flags_set_le (r : request) : flags_set r <= 4.
Proof.
  unfold flags_set.
  destruct (truthy (revokeMint r)), (truthy (revokeFreeze r)),
    (truthy (revokeMetadata r)), (truthy (customMetadata r)); simpl; lia.
Qed.

Lemma totalFee_flags_set (r : request) :
  totalFee r = surcharged (flags_set r) BASE_FEE_SOL.
Proof. apply totalFee_surcharged. Qed.

(** The five quotes, in lamports. *)
Lemma surcharged_lamports (k : nat) :
  k <= 4 ->
  (surcharged k BASE_FEE_SOL * LAMPORTS_PER_SOL)%float = whole (lamports k).
Proof.
  intros Hk.
  destruct k as [|[|[|[|[|k]]]]]; try (vm_compute; reflexivity). lia.
Qed.

(** X1: whatever JSON values the four option fields hold, the quote counts
    the fields that are truthy: it is one of the five doubles 0.08, 0.11,
    0.14, 0.17 and 0.2, the one that holds the decimal amount for that many
    options, so it is never below the base fee nor above 0.2. *)
Theorem quote_counts_truthy_fields (r : request) :
  totalFee r = nth (flags_set r) [0.08; 0.11; 0.14; 0.17; 0.2]%float nan
  /\ Decimal.represents (totalFee r) (Decimal.quote (flags_set r)) = true
  /\ (BASE_FEE_SOL <=? totalFee r)%float = true
  /\ (totalFee r <=? 0.2)%float = true.
Proof.
  rewrite totalFee_flags_set. pose proof (flags_set_le r) as Hk.
  destruct (flags_set r) as [|[|[|[|[|k]]]]]; try lia;
    repeat split; vm_compute; reflexivity.
Qed.

(** X2: a body with more truthy option fields is quoted strictly more. *)
Theorem more_options_cost_more (r r' : request) :
  flags_set r < flags_set r' ->
  (totalFee r <? totalFee r')%float = true.
Proof.
  rewrite !totalFee_flags_set.
  pose proof (flags_set_le r) as Hk. pose proof (flags_set_le r') as Hk'.
  destruct (flags_set r) as [|[|[|[|[|k]]]]]; try lia;
    destruct (flags_set r') as [|[|[|[|[|k']]]]]; try lia;
    intros _; vm_compute; reflexivity.
Qed.

(** X3: a quote times [LAMPORTS_PER_SOL], the amount /generate-payment puts
    in the transfer and both verifications compare with, is a whole number
    of lamports: 80 000 000 plus 30 000 000 per truthy option. *)
Theorem quote_is_whole_lamports (r : request) :
  (totalFee r * LAMPORTS_PER_SOL)%float = whole (lamports (flags_set r))
  /\ (80000000 <= lamports (flags_set r) <= 200000000)%Z.
Proof.
  pose proof (flags_set_le r) as Hk. split.
  - rewrite totalFee_flags_set. now apply surcharged_lamports.
  - unfold lamports. lia.
Qed.

End Quotes.

Lemma more_options_cost_more_witness :
  Quote.flags_set (Fee.of_flags true false false false) < Quote.flags_set Scenario.stringly_flags
  /\ (Fee.totalFee (Fee.of_flags true false false false)
      <? Fee.totalFee Scenario.stringly_flags)%float = true.
Proof.
  assert (H : Quote.flags_set (Fee.of_flags true false false false)
              < Quote.flags_set Scenario.stringly_flags) by (vm_compute; lia).
  split; [exact H|].
  exact (@more_options_cost_more (Fee.of_flags true false false false)
           Scenario.stringly_flags H).
Defined.

(* ------------------------------------------------------------------ *)
(** * More on the history scan *)

Section ScanEdges.

Import VerifyPayment.

Variables (c : Ledger.client) (r : request).

(** A record that throws, reached through records that answer without a
    match, ends the loop with an exception. *)
Lemma scan_first_throw (earlier : list string) (sig : string) (later : list string) :
  (forall s, In s earlier -> answers c r s = true /\ matches c r s = false) ->
  answers c r sig = false ->
  scan c r (earlier ++ sig :: later) = (Thrown, earlier ++ [sig]).
Proof.
  intros He Hs. induction earlier as [|e earlier IH]; simpl app.
  - now apply scan_throw.
  - destruct (He e (or_introl eq_refl)) as [Hea Hem].
    rewrite (scan_miss c r e _ Hea Hem), IH; [reflexivity|].
    intros s Hin. apply He. now right.
Qed.

(** With no number to compare with, or no string to compare with, nothing
    matches. *)
Lemma matches_needs_number_and_wallet (sig : string) :
  is_number (expectedFee r * LAMPORTS_PER_SOL) = false
  \/ (forall s, userWallet r <> JStr s) ->
  matches c r sig = false.
Proof.
  intros H. unfold matches.
  destruct (getTransaction c (JStr sig)) as [[txn|]|]; try reflexivity.
  destruct (meta txn) as [m|]; try reflexivity.
  unfold qualifies, element.
  destruct (nth_error (accountKeys txn) 0) as [sender|]; simpl; try reflexivity.
  destruct H as [Hnan | Hwallet].
  - destruct (nan_ltb (balance_decrease m) _ Hnan) as [_ Hle].
    rewrite Hle. apply andb_false_r.
  - destruct (userWallet r) as [ | | | |w| ]; try reflexivity.
    exfalso. now apply (Hwallet w).
Qed.

End ScanEdges.

(** X6: when the fetch of a record rejects, or a record with metadata lists
    no account, before any record of the window has matched, the handler
    sends no reply, whatever the rest of the window holds; the fetches stop
    at that record. *)
Theorem failed_fetch_ends_scan_without_reply
  (c : Ledger.client) (r : VerifyPayment.request)
  (h earlier : list string) (sig : string) (later : list string) :
  history c DEV_WALLET = Resolved h ->
  firstn HISTORY_LIMIT h = earlier ++ sig :: later ->
  (forall s, In s earlier ->
             VerifyPayment.answers c r s = true /\ VerifyPayment.matches c r s = false) ->
  VerifyPayment.answers c r sig = false ->
  VerifyPayment.verify_payment c r = (Escaped, earlier ++ [sig]).
Proof.
  intros Hh Hwindow Hearlier Hsig.
  rewrite (@verify_payment_window c r h Hh), Hwindow,
    (scan_first_throw c r earlier sig later Hearlier Hsig).
  reflexivity.
Qed.

Lemma failed_fetch_ends_scan_without_reply_witness :
  VerifyPayment.matches (Sample.node ["foreign"; "down"; "paid"]%string)
    Sample.scan_request "paid" = true
  /\ VerifyPayment.verify_payment (Sample.node ["foreign"; "down"; "paid"]%string)
       Sample.scan_request
     = (Escaped, ["foreign"; "down"]%string).
Proof.
  split; [reflexivity|].
  apply (@failed_fetch_ends_scan_without_reply
           (Sample.node ["foreign"; "down"; "paid"]%string) Sample.scan_request
           ["foreign"; "down"; "paid"]%string ["foreign"%string] "down" ["paid"%string]).
  - reflexivity.
  - reflexivity.
  - intros s [<-|[]]. split; reflexivity.
  - reflexivity.
Defined.

(** X7: a body that leaves [expectedFee] out (or gives no number), or whose
    [userWallet] is not a string, is never reported as paid: whatever the
    ledger holds, a reply is [paid: false]. *)
Theorem unpriced_or_anonymous_scan_is_never_paid
  (c : Ledger.client) (r : VerifyPayment.request) (resp : response) :
  is_number (VerifyPayment.expectedFee r * LAMPORTS_PER_SOL) = false
  \/ (forall s, VerifyPayment.userWallet r <> JStr s) ->
  fst (VerifyPayment.verify_payment c r) = Sent resp ->
  resp = Json 200 (PaidBody false).
Proof.
  intros Hr. unfold VerifyPayment.verify_payment.
  destruct (getSignaturesForAddress c DEV_WALLET HISTORY_LIMIT) as [signatures|];
    [|discriminate].
  destruct (VerifyPayment.scan c r signatures) as [[[|]|] fetched] eqn:Hscan;
    simpl; intros H; inversion H; [|reflexivity].
  destruct (scan_replied_true c r _ Hscan) as (earlier & sig & _ & Hm & _).
  rewrite (matches_needs_number_and_wallet c r sig Hr) in Hm. discriminate Hm.
Qed.

Lemma unpriced_or_anonymous_scan_is_never_paid_witness :
  is_number (VerifyPayment.expectedFee Scenario.unpriced_scan * LAMPORTS_PER_SOL) = false
  /\ VerifyPayment.matches (Sample.node ["paid"; "dust"]%string)
       Sample.scan_request "paid" = true
  /\ (forall resp,
        fst (VerifyPayment.verify_payment (Sample.node ["paid"; "dust"]%string)
               Scenario.unpriced_scan) = Sent resp ->
        resp = Json 200 (PaidBody false)).
Proof.
  split; [reflexivity|]. split; [reflexivity|].
  intros resp.
  exact (@unpriced_or_anonymous_scan_is_never_paid
           (Sample.node ["paid"; "dust"]%string) Scenario.unpriced_scan resp
           (or_introl eq_refl)).
Defined.

(** X8: a payment that reference mode accepts is found by the address scan
    for the same payer and fee: when its signature is in the window, the
    window answers and the amounts are numbers, /verify-payment replies
    [paid: true]. *)
Theorem payment_accepted_by_reference_is_found_by_scan
  (c : Ledger.client) (r : CreateToken.request) (h : list string) (sig : string)
  (txn : TransactionResponse) (m : Meta) :
  history c DEV_WALLET = Resolved h ->
  In sig (firstn HISTORY_LIMIT h) ->
  (forall s, In s (firstn HISTORY_LIMIT h) ->
             VerifyPayment.answers c (CreateToken.as_scan r) s = true) ->
  getTransaction c (JStr sig) = Resolved (Some txn) ->
  meta txn = Some m ->
  is_number (balance_decrease m) = true ->
  is_number (CreateToken.expectedFee r * LAMPORTS_PER_SOL) = true ->
  CreateToken.verify r (Some txn) = Resolved None ->
  fst (VerifyPayment.verify_payment c (CreateToken.as_scan r))
  = Sent (Json 200 (PaidBody true)).
Proof.
  intros Hh Hin Hanswers Hfetch Hm Hpaid Hdue Hverified.
  destruct (verify_passed r _ Hm Hverified) as (sender & others & Hk & Hs & Hlt).
  assert (Hmatch : VerifyPayment.matches c (CreateToken.as_scan r) sig = true).
  { unfold VerifyPayment.matches. rewrite Hfetch, Hm.
    rewrite (qualifies_first_account r _ m Hk), Hs.
    rewrite (ltb_negb_leb _ _ Hpaid Hdue) in Hlt.
    apply negb_false_iff in Hlt. now rewrite Hlt. }
  destruct (scan_answering c (CreateToken.as_scan r) (firstn HISTORY_LIMIT h) Hanswers)
    as (paid & fetched & Hscan & Hex & _).
  rewrite (@verify_payment_window c (CreateToken.as_scan r) h Hh), Hscan. simpl.
  assert (Htrue : paid = true).
  { rewrite Hex. apply existsb_exists. eauto. }
  now rewrite Htrue.
Qed.

Lemma payment_accepted_by_reference_is_found_by_scan_witness :
  CreateToken.verify (Sample.mint_request "paid" false false) (Some Sample.payment)
  = Resolved None
  /\ fst (VerifyPayment.verify_payment
            (Sample.node ["bare"; "unknown"; "short"; "paid"]%string)
            (CreateToken.as_scan (Sample.mint_request "paid" false false)))
     = Sent (Json 200 (PaidBody true)).
Proof.
  split; [reflexivity|].
  apply (@payment_accepted_by_reference_is_found_by_scan
           (Sample.node ["bare"; "unknown"; "short"; "paid"]%string)
           (Sample.mint_request "paid" false false)
           ["bare"; "unknown"; "short"; "paid"]%string "paid"
           Sample.payment (Sample.balances 110000000)); try reflexivity.
  - simpl. auto.
  - simpl. intros s [<-|[<-|[<-|[<-|[]]]]]; reflexivity.
Defined.

(* ------------------------------------------------------------------ *)
(** * More on the minting steps *)

Section Steps.

Import CreateToken.

Variables (l : Ledger.client) (t : Token.client) (r : request).

Lemma verify_refusal_status fetched resp :
  verify r fetched = Resolved (Some resp) -> status resp = 400.
Proof.
  destruct fetched as [txn|]; simpl.
  - destruct (meta txn); [|intros H; inversion H; reflexivity].
    destruct (element (accountKeys txn) 0); simpl; [|discriminate].
    destruct (element (accountKeys txn) 1); simpl; [|discriminate].
    repeat match goal with
           | |- (if ?b then _ else _) = _ -> _ => destruct b
           end; intros H; inversion H; reflexivity.
  - intros H. inversion H. reflexivity.
Qed.

(** The run up to the third call on the token program. *)
Lemma create_token_issuing fetched payer mint account :
  getTransaction l (paymentSignature r) = Resolved fetched ->
  verify r fetched = Resolved None ->
  fromSecretKey t (payerSecret r) = Resolved payer ->
  perform t (CreateMint payer payer payer (decimals r)) = Resolved mint ->
  perform t (GetOrCreateAssociatedAccountInfo mint payer) = Resolved account ->
  create_token l t r =
  match perform t (MintTo mint account payer (supply r)) with
  | Thrown =>
      (creation_failed,
       [(CreateMint payer payer payer (decimals r), mint);
        (GetOrCreateAssociatedAccountInfo mint payer, account)])
  | Resolved minted =>
      match options r with
      | None =>
          (creation_failed,
           [(CreateMint payer payer payer (decimals r), mint);
            (GetOrCreateAssociatedAccountInfo mint payer, account);
            (MintTo mint account payer (supply r), minted)])
      | Some opts =>
          create_token l t r
      end
  end.
Proof.
  intros Hf Hv Hkey Hmint Haccount.
  destruct (perform t (MintTo mint account payer (supply r))) as [minted|] eqn:Hto.
  - destruct (options r) as [opts|] eqn:Hopts; [reflexivity|].
    unfold create_token, attempt, bind, await, call, ret.
    rewrite Hf, Hv, Hkey, Hmint, Haccount, Hto, Hopts. reflexivity.
  - unfold create_token, attempt, bind, await, call, ret.
    rewrite Hf, Hv, Hkey, Hmint, Haccount, Hto. reflexivity.
Qed.

End Steps.

(** X9: the token program is only ever called in the handler's order
    (create the mint, get the holding account, issue the supply, revoke the
    mint authority, revoke the freeze authority): the operations carried out
    in a run are an initial stretch of that list.  A 400 reply means none was
    carried out, and a 200 reply means all of them were. *)
Theorem token_operations_follow_the_steps
  (l : Ledger.client) (t : Token.client) (r : CreateToken.request) :
  exists payer mint account n,
    map fst (snd (CreateToken.create_token l t r))
    = firstn n (Plan.steps r payer mint account)
    /\ (status (fst (CreateToken.create_token l t r)) = 400 ->
        snd (CreateToken.create_token l t r) = [])
    /\ (status (fst (CreateToken.create_token l t r)) = 200 ->
        map fst (snd (CreateToken.create_token l t r))
        = Plan.steps r payer mint account).
Proof.
  unfold CreateToken.create_token, CreateToken.attempt, CreateToken.bind,
    CreateToken.await, CreateToken.call, CreateToken.ret, Plan.steps.
  destruct (getTransaction l (CreateToken.paymentSignature r)) as [fetched|];
    [|exists EmptyString, EmptyString, EmptyString, 0; simpl;
      repeat split; try discriminate].
  destruct (CreateToken.verify r fetched) as [[resp|]|] eqn:Hv;
    [exists EmptyString, EmptyString, EmptyString, 0; simpl; repeat split;
     intros H; rewrite (verify_refusal_status r _ Hv) in H; discriminate H
    | |exists EmptyString, EmptyString, EmptyString, 0; simpl;
       repeat split; try discriminate].
  destruct (fromSecretKey t (CreateToken.payerSecret r)) as [payer|];
    [|exists EmptyString, EmptyString, EmptyString, 0; simpl;
      repeat split; try discriminate].
  destruct (perform t (CreateMint payer payer payer (CreateToken.decimals r)))
    as [mint|];
    [|exists payer, EmptyString, EmptyString, 0; simpl;
      repeat split; try discriminate].
  destruct (perform t (GetOrCreateAssociatedAccountInfo mint payer)) as [account|];
    [|exists payer, mint, EmptyString, 1; simpl; repeat split; try discriminate].
  destruct (perform t (MintTo mint account payer (CreateToken.supply r))) as [minted|];
    [|exists payer, mint, account, 2; simpl; repeat split; try discriminate].
  exists payer, mint, account.
  destruct (CreateToken.options r) as [opts|];
    [|exists 3; simpl; repeat split; try discriminate].
  destruct (truthy (CreateToken.revokeMint opts));
    [destruct (perform t (SetAuthority mint mint None MintTokens payer));
       [|exists 3; simpl; repeat split; try discriminate]|];
    (destruct (truthy (CreateToken.revokeFreeze opts));
     [destruct (perform t (SetAuthority mint mint None FreezeAccount payer))|]);
    first [ exists 5; simpl; repeat split; try discriminate; reflexivity
          | exists 4; simpl; repeat split; try discriminate; reflexivity
          | exists 3; simpl; repeat split; try discriminate; reflexivity ].
Qed.

(** X10: nothing is rolled back.  When the payment is verified, the mint and
    the holding account are created and issuing the supply then fails, the
    reply is the 500 and the mint stays behind, with both authorities at the
    caller's key and no supply issued. *)
Theorem failed_issuance_leaves_the_mint_behind
  (l : Ledger.client) (t : Token.client) (r : CreateToken.request)
  (fetched : option TransactionResponse) (payer mint account : string) :
  getTransaction l (CreateToken.paymentSignature r) = Resolved fetched ->
  CreateToken.verify r fetched = Resolved None ->
  fromSecretKey t (CreateToken.payerSecret r) = Resolved payer ->
  perform t (CreateMint payer payer payer (CreateToken.decimals r)) = Resolved mint ->
  perform t (GetOrCreateAssociatedAccountInfo mint payer) = Resolved account ->
  perform t (MintTo mint account payer (CreateToken.supply r)) = Thrown ->
  CreateToken.create_token l t r
  = (Json 500 (ErrorBody "Token creation failed."),
     [(CreateMint payer payer payer (CreateToken.decimals r), mint);
      (GetOrCreateAssociatedAccountInfo mint payer, account)])
  /\ authorities mint (snd (CreateToken.create_token l t r))
     = Some {| mintAuthority := Some payer; freezeAuthority := Some payer |}.
Proof.
  intros Hf Hv Hkey Hmint Haccount Hto.
  rewrite (create_token_issuing l t r Hf Hv Hkey Hmint Haccount), Hto.
  split; [reflexivity|].
  unfold authorities. simpl. now rewrite String.eqb_refl.
Qed.

Lemma failed_issuance_leaves_the_mint_behind_witness :
  CreateToken.create_token (Sample.node []) Scenario.stalling
    (Sample.mint_request "paid" true true)
  = (Json 500 (ErrorBody "Token creation failed."),
     [(CreateMint Sample.owner Sample.owner Sample.owner (JNum 9), "mint-address"%string);
      (GetOrCreateAssociatedAccountInfo "mint-address" Sample.owner,
       "holding-address"%string)]).
Proof.
  exact (proj1 (@failed_issuance_leaves_the_mint_behind
                  (Sample.node []) Scenario.stalling
                  (Sample.mint_request "paid" true true) (Some Sample.payment)
                  Sample.owner "mint-address" "holding-address"
                  eq_refl eq_refl eq_refl eq_refl eq_refl eq_refl)).
Defined.

(** X11: a body without [options] is only found out after the minting:
    when the payment is verified and the first three calls succeed, the
    supply has been issued, no authority is touched, and the reply is the
    500. *)
Theorem missing_options_fail_after_issuing
  (l : Ledger.client) (t : Token.client) (r : CreateToken.request)
  (fetched : option TransactionResponse) (payer mint account minted : string) :
  CreateToken.options r = None ->
  getTransaction l (CreateToken.paymentSignature r) = Resolved fetched ->
  CreateToken.verify r fetched = Resolved None ->
  fromSecretKey t (CreateToken.payerSecret r) = Resolved payer ->
  perform t (CreateMint payer payer payer (CreateToken.decimals r)) = Resolved mint ->
  perform t (GetOrCreateAssociatedAccountInfo mint payer) = Resolved account ->
  perform t (MintTo mint account payer (CreateToken.supply r)) = Resolved minted ->
  CreateToken.create_token l t r
  = (Json 500 (ErrorBody "Token creation failed."),
     [(CreateMint payer payer payer (CreateToken.decimals r), mint);
      (GetOrCreateAssociatedAccountInfo mint payer, account);
      (MintTo mint account payer (CreateToken.supply r), minted)])
  /\ filter is_set_authority (snd (CreateToken.create_token l t r)) = [].
Proof.
  intros Hopts Hf Hv Hkey Hmint Haccount Hto.
  rewrite (create_token_issuing l t r Hf Hv Hkey Hmint Haccount), Hto, Hopts.
  split; reflexivity.
Qed.

Lemma missing_options_fail_after_issuing_witness :
  CreateToken.create_token (Sample.node []) Sample.program Scenario.optionless_request
  = (Json 500 (ErrorBody "Token creation failed."),
     [(CreateMint Sample.owner Sample.owner Sample.owner (JNum 9), "mint-address"%string);
      (GetOrCreateAssociatedAccountInfo "mint-address" Sample.owner,
       "holding-address"%string);
      (MintTo "mint-address" "holding-address" Sample.owner (JNum 1000000),
       "confirmed"%string)]).
Proof.
  exact (proj1 (@missing_options_fail_after_issuing
                  (Sample.node []) Sample.program Scenario.optionless_request
                  (Some Sample.payment) Sample.owner "mint-address" "holding-address"
                  "confirmed" eq_refl eq_refl eq_refl eq_refl eq_refl eq_refl eq_refl)).
Defined.

(* ------------------------------------------------------------------ *)
(** * From the quote to the verified payment *)

(** X12: the quote, the payment and the verification fit together to the
    lamport.  For a request that declares a fee quoted by /calculate-fee, a
    payment from the declared payer to the operator whose balance decrease is
    the quote in lamports passes verification, and a decrease of one lamport
    less is refused as an incorrect amount. *)
Theorem quoted_fee_paid_to_the_lamport_passes
  (q : Fee.request) (r : CreateToken.request)
  (txn : TransactionResponse) (m : Meta) (sender : string) (others : list string) :
  CreateToken.expectedFee r = Fee.totalFee q ->
  meta txn = Some m ->
  accountKeys txn = sender :: DEV_WALLET :: others ->
  strict_eq_str sender (CreateToken.userWallet r) = true ->
  (balance_decrease m = Quote.whole (Quote.lamports (Quote.flags_set q)) ->
   CreateToken.verify r (Some txn) = Resolved None)
  /\ (balance_decrease m = Quote.whole (Quote.lamports (Quote.flags_set q) - 1) ->
      CreateToken.verify r (Some txn) = Resolved (Some CreateToken.amount_mismatch)).
Proof.
  intros Hfee Hm Hk Hs.
  rewrite (verify_two_accounts r _ Hm Hk), Hs, String.eqb_refl, Hfee.
  rewrite totalFee_flags_set, (surcharged_lamports (flags_set_le q)).
  pose proof (flags_set_le q) as Hle.
  destruct (Quote.flags_set q) as [|[|[|[|[|k]]]]]; try lia;
    split; intros ->; vm_compute; reflexivity.
Qed.

Lemma quoted_fee_paid_to_the_lamport_passes_witness :
  CreateToken.expectedFee (Sample.mint_request "paid" false false)
  = Fee.totalFee (Fee.of_flags true false false false)
  /\ CreateToken.verify (Sample.mint_request "paid" false false) (Some Sample.payment)
     = Resolved None
  /\ CreateToken.verify (Sample.mint_request "short" false false)
       (Some Sample.short_payment)
     = Resolved (Some CreateToken.amount_mismatch).
Proof.
  split; [reflexivity|]. split.
  - exact (proj1 (@quoted_fee_paid_to_the_lamport_passes
                    (Fee.of_flags true false false false)
                    (Sample.mint_request "paid" false false) Sample.payment
                    (Sample.balances 110000000) Sample.wallet [Sample.system_program]
                    eq_refl eq_refl eq_refl eq_refl) eq_refl).
  - exact (proj2 (@quoted_fee_paid_to_the_lamport_passes
                    (Fee.of_flags true false false false)
                    (Sample.mint_request "short" false false) Sample.short_payment
                    (Sample.balances 109999999) Sample.wallet [Sample.system_program]
                    eq_refl eq_refl eq_refl eq_refl) eq_refl).
Defined.

(* ------------------------------------------------------------------ *)
(** * Properties of the payment request builder *)

Section Builder.

Import GeneratePayment.

Variables (lib : library) (r : request).

(** X4: a transaction that /generate-payment hands out is the serialized
    form of a single transfer from the address in [userWallet] to the
    operator, of [totalFee * LAMPORTS_PER_SOL] lamports, with that same
    address as fee payer and the node's latest blockhash. *)
Theorem built_transaction_pays_the_operator (tx : string) (asked : bool) :
  generate_payment lib r = (Built tx, asked) ->
  exists from blockhash,
    newPublicKey lib (userWallet r) = Resolved from
    /\ getLatestBlockhash lib = Resolved blockhash
    /\ asked = true
    /\ serialize lib
         {| instructions :=
              [SystemTransfer {| fromPubkey := from;
                                 toPubkey := DEV_WALLET;
                                 lamports := (totalFee r * LAMPORTS_PER_SOL)%float |}];
            recentBlockhash := Some blockhash;
            feePayer := Some from |}
       = Resolved tx.
Proof.
  unfold generate_payment, build, transfer.
  destruct (newPublicKey lib (userWallet r)) as [from|] eqn:Hkey; [|discriminate].
  destruct (accepts lib _); [|discriminate].
  destruct (getLatestBlockhash lib) as [blockhash|]; [|discriminate].
  simpl.
  destruct (serialize lib _) as [text|] eqn:Hser; [|discriminate].
  intros H. inversion H; subst. exists from, blockhash. auto.
Qed.

(** X5: a [userWallet] that is no address, or an amount the library cannot
    encode, gives the 500 reply before the node is asked for anything: the
    reply is the same whatever the node and the serializer would answer. *)
Theorem unusable_request_fails_before_asking_the_node :
  (newPublicKey lib (userWallet r) = Thrown
   \/ exists from,
        newPublicKey lib (userWallet r) = Resolved from
        /\ accepts lib {| fromPubkey := from;
                          toPubkey := DEV_WALLET;
                          lamports := (totalFee r * LAMPORTS_PER_SOL)%float |} = false) ->
  generate_payment lib r = (Failed "Failed to generate payment transaction.", false)
  /\ (forall lib',
        newPublicKey lib' = newPublicKey lib ->
        accepts lib' = accepts lib ->
        generate_payment lib' r = generate_payment lib r).
Proof.
  intros H.
  assert (Hfail : forall lib',
             newPublicKey lib' = newPublicKey lib -> accepts lib' = accepts lib ->
             generate_payment lib' r = (generation_failed, false)).
  { intros lib' Hk Ha. unfold generate_payment, build, transfer. rewrite Hk, Ha.
    destruct H as [Hkey | (from & Hkey & Hno)]; rewrite Hkey; [|rewrite Hno];
      reflexivity. }
  split.
  - now apply Hfail.
  - intros lib' Hk Ha. now rewrite (Hfail lib' Hk Ha), (Hfail lib eq_refl eq_refl).
Qed.

End Builder.

Lemma built_transaction_pays_the_operator_witness :
  exists from blockhash,
    GeneratePayment.serialize Scenario.web3
      {| GeneratePayment.instructions :=
           [GeneratePayment.SystemTransfer
              {| GeneratePayment.fromPubkey := from;
                 GeneratePayment.toPubkey := DEV_WALLET;
                 GeneratePayment.lamports := (0.11 * LAMPORTS_PER_SOL)%float |}];
         GeneratePayment.recentBlockhash := Some blockhash;
         GeneratePayment.feePayer := Some from |}
    = Resolved "AQAAAA=="%string.
Proof.
  destruct (@built_transaction_pays_the_operator Scenario.web3 Scenario.payment_request
              "AQAAAA==" true eq_refl)
    as (from & blockhash & _ & _ & _ & Hser).
  exists from, blockhash. exact Hser.
Defined.

Lemma unusable_request_fails_before_asking_the_node_witness :
  GeneratePayment.generate_payment Scenario.web3 Scenario.anonymous_request
  = (GeneratePayment.Failed "Failed to generate payment transaction.", false).
Proof.
  exact (proj1 (@unusable_request_fails_before_asking_the_node
                  Scenario.web3 Scenario.anonymous_request (or_introl eq_refl))).
Defined.

(* ------------------------------------------------------------------ *)
(** * Payments that cannot be checked *)

(** X13: when the node rejects the fetch of the payment, or answers with a
    record with metadata that lists fewer than two accounts, /create-token
    replies with the 500 of a failed creation, not with a 400, and the token
    program is asked nothing. *)
Theorem unverifiable_payment_is_a_failed_creation
  (l : Ledger.client) (t : Token.client) (r : CreateToken.request) :
  (getTransaction l (CreateToken.paymentSignature r) = Thrown
   \/ exists txn m,
        getTransaction l (CreateToken.paymentSignature r) = Resolved (Some txn)
        /\ meta txn = Some m
        /\ List.length (accountKeys txn) < 2) ->
  CreateToken.create_token l t r = (Json 500 (ErrorBody "Token creation failed."), []).
Proof.
  intros [Hf | (txn & m & Hf & Hm & Hlen)].
  - apply create_token_unverified. now left.
  - apply create_token_unverified. right. exists (Some txn). split; [exact Hf|].
    unfold CreateToken.verify, element. rewrite Hm.
    destruct (accountKeys txn) as [|k0 [|k1 keys]]; simpl in *; try reflexivity. lia.
Qed.

Lemma unverifiable_payment_is_a_failed_creation_witness :
  CreateToken.create_token Scenario.lonely_node Sample.program
    (Sample.mint_request "paid" false false)
  = (Json 500 (ErrorBody "Token creation failed."), []).
Proof.
  apply (@unverifiable_payment_is_a_failed_creation Scenario.lonely_node Sample.program
           (Sample.mint_request "paid" false false)).
  right. exists Scenario.lonely_record.
  exists {| preBalances := [500000000]%float; postBalances := [499995000]%float |}.
  split; [reflexivity|]. split; [reflexivity|]. simpl. lia.
Defined.
